(** * WatchDog: event-to-log normalisation and audit attribution

    A shallow embedding of [index.js] (the Discord moderation audit bot)
    and the properties of its specification, stated on that embedding.

    Conventions of the embedding.
    - Module-level mutable caches ([guildConfig], [nicknameHistory],
      [client.invites]) and the two JSON files are the fields of [State];
      functions that touch them live in the monad [M].
    - Every call into the platform (audit-log fetch, invite fetch, channel
      fetch, message send) is an [await] in the source.  The reply of the
      platform is an explicit argument of the function that awaits it, and
      the request is recorded in the trace of [Action]s.
    - A JavaScript exception is the [Throw] completion of [M]; [try_catch]
      is [try { .. } catch (e) { .. }].
    - Ids are Discord snowflakes (decimal digit strings); JS objects used
      as dictionaries are [gmap]s over their own properties. *)

From Stdlib Require Import ZArith Ascii String.
From stdpp Require Import gmap strings list fin_maps pretty.

Local Open Scope string_scope.
Local Open Scope Z_scope.

(** ** Platform data *)

Record User := {
  u_id : string;
  u_tag : string;
  u_username : string;
  u_bot : bool;
  u_createdAt : Z;          (* createdAt.getTime(), milliseconds *)
  u_avatar : string         (* displayAvatarURL({dynamic: true}) *)
}.

Record Guild := {
  g_id : string;
  g_name : string
}.

(** ** The Config Store *)

(** Content of a JSON file on disk.  A file written by [saveConfig] holds
    the value that was serialised ([JSON.parse] after [JSON.stringify] is
    the identity on objects of strings and of arrays of strings); a file
    edited by hand may fail to parse. *)
Inductive file (A : Type) : Type :=
  | Absent : file A                 (* fs.existsSync is false *)
  | Garbled : string -> file A      (* JSON.parse throws, with this message *)
  | Holds : A -> file A.
Arguments Absent {A}.
Arguments Garbled {A} _.
Arguments Holds {A} _.

Record Disk := {
  config_json : file (gmap string string);                       (* config.json *)
  history_json : file (gmap string (gmap string (list string)))  (* nicknameHistory.json *)
}.

Record State := {
  guildConfig : gmap string string;                              (* guild id -> channel id *)
  nicknameHistory : gmap string (gmap string (list string));     (* guild id -> user id -> nicknames *)
  invites : gmap string (gmap string Z);                         (* client.invites *)
  disk : Disk
}.

Definition set_guildConfig (c : gmap string string) (s : State) : State :=
  {| guildConfig := c; nicknameHistory := nicknameHistory s;
     invites := invites s; disk := disk s |}.
Definition set_nicknameHistory (h : gmap string (gmap string (list string))) (s : State) : State :=
  {| guildConfig := guildConfig s; nicknameHistory := h;
     invites := invites s; disk := disk s |}.
Definition set_invites (i : gmap string (gmap string Z)) (s : State) : State :=
  {| guildConfig := guildConfig s; nicknameHistory := nicknameHistory s;
     invites := i; disk := disk s |}.
Definition set_disk (d : Disk) (s : State) : State :=
  {| guildConfig := guildConfig s; nicknameHistory := nicknameHistory s;
     invites := invites s; disk := d |}.

(** ** Exceptions, actions and the handler monad *)

(** A thrown value.  [DiscordAPIError] is a platform call rejected with a
    numeric [code]; [OtherError] is any error without one (transport
    failure, [SyntaxError] of [JSON.parse], ...); [ReferenceError] is
    raised by the evaluation of an unbound identifier. *)
Inductive Exn : Type :=
  | DiscordAPIError (code : Z) (message : string)
  | OtherError (message : string)
  | ReferenceError (name : string).

(** [e.code]: only a platform error has a numeric code. *)
Definition exn_code (e : Exn) : option Z :=
  match e with
  | DiscordAPIError c _ => Some c
  | OtherError _ => None
  | ReferenceError _ => None
  end.

(** [e.message] *)
Definition exn_message (e : Exn) : string :=
  match e with
  | DiscordAPIError _ m => m
  | OtherError m => m
  | ReferenceError x => x +:+ " is not defined"
  end.

(** [AuditLogEvent] of discord.js, by name; [OtherEvent] stands for the
    kinds this program never asks for. *)
Inductive AuditLogEvent : Type :=
  | GuildUpdate | ChannelUpdate | ChannelDelete | MemberKick | MemberBanAdd
  | MemberBanRemove | MemberUpdate | RoleUpdate | RoleDelete
  | MessageBulkDelete | MessagePin | MessageUnpin
  | OtherEvent (n : Z).

#[global] Instance AuditLogEvent_eq_dec : EqDecision AuditLogEvent.
Proof. solve_decision. Defined.

(** The number behind each kind (the platform's numbering), as printed
    by a template literal. *)
Definition event_code (k : AuditLogEvent) : Z :=
  match k with
  | GuildUpdate => 1 | ChannelUpdate => 11 | ChannelDelete => 12
  | MemberKick => 20 | MemberBanAdd => 22 | MemberBanRemove => 23
  | MemberUpdate => 24 | RoleUpdate => 31 | RoleDelete => 32
  | MessageBulkDelete => 73 | MessagePin => 74 | MessageUnpin => 75
  | OtherEvent n => n
  end.

(** [Colors] of discord.js, by name. *)
Inductive Color : Type :=
  | Green | Red | Orange | Blue | Yellow | Grey | Purple
  | DarkGreen | DarkOrange | LuminousVividPink.

(** The embed handed to [channel.send] (its timestamp is left out). *)
Record Embed := {
  e_title : string;
  e_description : string;
  e_color : Color;
  e_footer : string;
  e_author : string;
  e_icon : string;
  e_thumbnail : option string
}.

(** What a handler hands to [logEvent]: guild, title, description, colour
    and the optional user that decorates the embed. *)
Record LogRecord := {
  r_guild : Guild;
  r_title : string;
  r_description : string;
  r_color : Color;
  r_user : option User
}.

Inductive Action : Type :=
  | ConsoleLog (msg : string)
  | ConsoleWarn (msg : string)
  | ConsoleError (msg : string)
  | FetchAuditLogs (guildId : string) (limit : Z) (types : list AuditLogEvent)
  | FetchInvites (guildId : string)
  | FetchChannel (guildId channelId : string)
  | Send (channelId : string) (embed : Embed)
  | LogEvent (record : LogRecord).   (* a call logEvent(guild, title, description, color, user) *)

Inductive Completion (A : Type) : Type :=
  | Return : A -> Completion A
  | Throw : Exn -> Completion A.
Arguments Return {A} _.
Arguments Throw {A} _.

Record Outcome (A : Type) := {
  completion : Completion A;
  final : State;
  trace : list Action
}.
Arguments completion {A} _.
Arguments final {A} _.
Arguments trace {A} _.

Definition M (A : Type) : Type := State -> Outcome A.

Definition ret {A} (a : A) : M A :=
  fun s => {| completion := Return a; final := s; trace := [] |}.

Definition throw {A} (e : Exn) : M A :=
  fun s => {| completion := Throw e; final := s; trace := [] |}.

Definition bind {A B} (m : M A) (k : A -> M B) : M B :=
  fun s =>
    let o := m s in
    match completion o with
    | Return a =>
        let o' := k a (final o) in
        {| completion := completion o'; final := final o';
           trace := trace o ++ trace o' |}
    | Throw e => {| completion := Throw e; final := final o; trace := trace o |}
    end.

Definition try_catch {A} (m : M A) (h : Exn -> M A) : M A :=
  fun s =>
    let o := m s in
    match completion o with
    | Return a => o
    | Throw e =>
        let o' := h e (final o) in
        {| completion := completion o'; final := final o';
           trace := trace o ++ trace o' |}
    end.

Definition get : M State :=
  fun s => {| completion := Return s; final := s; trace := [] |}.

Definition modify (f : State -> State) : M unit :=
  fun s => {| completion := Return tt; final := f s; trace := [] |}.

Definition emit (a : Action) : M unit :=
  fun s => {| completion := Return tt; final := s; trace := [a] |}.

(** An awaited platform call: the request is traced, the reply is the
    resolution or the rejection supplied by the environment. *)
Definition await {A} (request : Action) (reply : Exn + A) : M A :=
  fun s =>
    {| completion := match reply with inl e => Throw e | inr a => Return a end;
       final := s; trace := [request] |}.

Notation "x <- m ;; k" := (bind m (fun x => k))
  (at level 100, m at next level, right associativity).
Notation "m ;;; k" := (bind m (fun _ => k))
  (at level 100, right associativity).

(** ** Configuration and utilities (index.js lines 57-132) *)

Definition initial_state (d : Disk) : State :=
  {| guildConfig := ∅; nicknameHistory := ∅; invites := ∅; disk := d |}.

(** [loadConfig]: each file is read when it exists; a parse failure of
    either file resets both caches. *)
Definition loadConfig : M unit :=
  try_catch
    (s <- get ;;
     (match config_json (disk s) with
      | Holds c =>
          modify (set_guildConfig c) ;;;
          emit (ConsoleLog ("✅ Loaded log configuration for "
                            +:+ pretty (Z.of_nat (size c)) +:+ " guild(s)."))
      | Garbled msg => throw (OtherError msg)
      | Absent => emit (ConsoleLog "⚠️ Config file not found, starting with empty log configuration.")
      end) ;;;
     (match history_json (disk s) with
      | Holds h => modify (set_nicknameHistory h) ;;; emit (ConsoleLog "✅ Loaded nickname history.")
      | Garbled msg => throw (OtherError msg)
      | Absent => emit (ConsoleLog "⚠️ Nickname history file not found, starting empty history.")
      end))
    (fun e =>
       emit (ConsoleError ("❌ Error loading config files: " +:+ exn_message e)) ;;;
       modify (set_guildConfig ∅) ;;;
       modify (set_nicknameHistory ∅)).

(** [saveConfig]: both caches are written out whole.  [fs.writeFileSync]
    is taken to succeed; the [catch] branch of the source only logs. *)
Definition saveConfig : M unit :=
  modify (fun s =>
    set_disk {| config_json := Holds (guildConfig s);
                history_json := Holds (nicknameHistory s) |} s).

(** JS truthiness of a string-or-null value: [null]/[undefined] and the
    empty string are falsy. *)
Definition truthy (v : option string) : option string :=
  match v with
  | Some s => if bool_decide (s = "") then None else Some s
  | None => None
  end.

(** [nicknameHistory[guildId]?.[userId] || []] *)
Definition history_of (h : gmap string (gmap string (list string)))
    (guildId userId : string) : list string :=
  match h !! guildId with
  | Some users => default [] (users !! userId)
  | None => []
  end.

(** The three store updates of [recordNickname], on the history map. *)
Definition ensure_guild (guildId : string)
    (h : gmap string (gmap string (list string))) :=
  match h !! guildId with
  | Some _ => h
  | None => <[guildId := ∅]> h
  end.

Definition ensure_user (guildId userId : string)
    (h : gmap string (gmap string (list string))) :=
  match h !! guildId with
  | Some users =>
      match users !! userId with
      | Some _ => h
      | None => <[guildId := <[userId := []]> users]> h
      end
  | None => h
  end.

Definition store_history (guildId userId : string) (l : list string)
    (h : gmap string (gmap string (list string))) :=
  match h !! guildId with
  | Some users => <[guildId := <[userId := l]> users]> h
  | None => h
  end.

(** [recordNickname(guild, member, nickname)].  The member stands here as
    its [member.id]; [None] is a null guild, member or nickname. *)
Definition recordNickname (guild : option Guild) (memberId : option string)
    (nickname : option string) : M unit :=
  match guild, memberId, truthy nickname with
  | Some g, Some userId, Some nick =>
      let guildId := g_id g in
      modify (fun s => set_nicknameHistory (ensure_guild guildId (nicknameHistory s)) s) ;;;
      modify (fun s => set_nicknameHistory (ensure_user guildId userId (nicknameHistory s)) s) ;;;
      s <- get ;;
      let hist := history_of (nicknameHistory s) guildId userId in
      (* Only store unique, non-empty nicknames *)
      if bool_decide (nick ∈ hist) then ret tt
      else
        (* unshift, then slice(0, 20) *)
        modify (fun s => set_nicknameHistory
                  (store_history guildId userId (take 20 (nick :: hist))
                     (nicknameHistory s)) s) ;;;
        saveConfig
  | _, _, _ => ret tt
  end.

(** [Array.prototype.join] *)
Fixpoint join (sep : string) (l : list string) : string :=
  match l with
  | [] => ""
  | [x] => x
  | x :: rest => x +:+ sep +:+ join sep rest
  end.

(** [getNicknameHistory(guildId, userId)]: all but the first entry. *)
Definition getNicknameHistory (s : State) (guildId userId : string) : string :=
  let history := history_of (nicknameHistory s) guildId userId in
  if bool_decide (length history = 0%nat) then "None recorded."
  else join ", " (drop 1 history).

(** The platform restarts the process: the caches start empty and
    [loadConfig] runs from the [ready] handler. *)
Definition reload (d : Disk) : State := final (loadConfig (initial_state d)).

(** ** Nickname history: invariant and step *)

(** A well-formed history list: bounded, duplicate free, no empty entry. *)
Definition hist_ok (l : list string) : Prop :=
  (length l <= 20)%nat /\ NoDup l /\ "" ∉ l.

Definition store_ok (h : gmap string (gmap string (list string))) : Prop :=
  forall g u, hist_ok (history_of h g u).

(** One call [recordNickname(guild, member, nickname)]. *)
Record NickCall := {
  c_guild : option Guild;
  c_member : option string;
  c_nickname : option string
}.

Definition run_call (s : State) (c : NickCall) : State :=
  final (recordNickname (c_guild c) (c_member c) (c_nickname c) s).

Definition run_calls (calls : list NickCall) (s : State) : State :=
  fold_left run_call calls s.

(** Does the call address the history of user [u] in guild [g] with a
    usable nickname?  Then that nickname. *)
Definition call_target (c : NickCall) (g u : string) : option string :=
  match c_guild c, c_member c, truthy (c_nickname c) with
  | Some gd, Some uid, Some nick =>
      if bool_decide (g_id gd = g /\ uid = u) then Some nick else None
  | _, _, _ => None
  end.

(** The rule of the data model: prepend unless present, keep 20. *)
Definition prepend_unique (nick : string) (old : list string) : list string :=
  if bool_decide (nick ∈ old) then old else take 20 (nick :: old).

(** ** More platform data *)

(** Line feed, the [\n] of the source's template literals. *)
Definition nl : string := String (ascii_of_nat 10) "".

(** A [GuildAuditLogsEntry]: [executor], [targetId] and [reason] are
    nullable in discord.js. *)
Record AuditLogEntry := {
  a_action : AuditLogEvent;
  a_targetId : option string;
  a_createdTimestamp : Z;
  a_executor : option User;
  a_reason : option string
}.

(** The result object [{ executor, reason }]. *)
Record Attribution := {
  executor : option User;
  reason : option string
}.

Record Invite := {
  i_code : string;
  i_uses : Z;
  i_inviter : option User
}.

Record Role := {
  role_id : string;
  role_name : string;
  role_color : Z;
  role_permissions : Z           (* permissions.bitfield *)
}.

Record Member := {
  m_user : User;
  m_guild : Guild;
  m_partial : bool;
  m_nickname : option string;
  m_joinedAt : option Z;                        (* joinedAt.getTime() *)
  m_roles : list Role;                          (* roles.cache, ids pairwise distinct *)
  m_communicationDisabledUntil : option Z       (* communicationDisabledUntilTimestamp *)
}.

(** [member.id] is the id of the member's user. *)
Definition m_id (m : Member) : string := u_id (m_user m).

Record Overwrite := {
  ow_allow : Z;                  (* allow.bitfield *)
  ow_deny : Z                    (* deny.bitfield *)
}.

#[global] Instance Overwrite_eq_dec : EqDecision Overwrite.
Proof. solve_decision. Defined.

Record Channel := {
  ch_id : string;
  ch_guild : option Guild;
  ch_partial : bool;
  ch_type : Z;
  ch_name : string;
  ch_topic : option string;
  ch_rateLimitPerUser : Z;
  ch_permissionOverwrites : gmap string Overwrite   (* permissionOverwrites.cache *)
}.

Record Attachment := {
  att_name : string;
  att_url : string
}.

Record Message := {
  msg_guild : option Guild;
  msg_author : option User;
  msg_channelId : string;
  msg_content : option string;
  msg_attachments : list Attachment
}.

(** A guild as the [guildUpdate] event sees it. *)
Record GuildSettings := {
  gs_guild : Guild;
  gs_iconURL : option string;
  gs_verificationLevel : Z;
  gs_systemChannelId : option string;
  gs_systemChannel : option string   (* the cached channel behind systemChannelId, if any *)
}.

(** [`${channel}`]: a channel prints as its mention. *)
Definition channel_mention (id : string) : string := "<#" +:+ id +:+ ">".

(** [s || fallback] on a nullable string. *)
Definition or_else (v : option string) (fallback : string) : string :=
  match truthy v with
  | Some s => s
  | None => fallback
  end.

(** [`<t:${Math.floor(date.getTime() / 1000)}:f>`] and its [:R] form. *)
Definition unix_seconds (ms : Z) : string := pretty (ms / 1000).

(** [n.toString(16).toUpperCase()] *)
Definition hex_digit (d : Z) : ascii :=
  default "0"%char (String.get (Z.to_nat d) "0123456789ABCDEF").

Fixpoint hex_digits (fuel : nat) (n : Z) (acc : string) : string :=
  match fuel with
  | O => acc
  | S fuel' =>
      let acc' := String (hex_digit (n mod 16)) acc in
      if n / 16 =? 0 then acc' else hex_digits fuel' (n / 16) acc'
  end.

Definition toString16Upper (n : Z) : string :=
  if n <? 0 then "-" +:+ hex_digits (S (Z.to_nat (Z.log2 (- n)))) (- n) ""
  else hex_digits (S (Z.to_nat (Z.log2 n))) n "".

(** ** Log delivery (index.js lines 143-176) *)

Definition LOGO_URL : string := "https://placehold.co/128x128/3498db/ffffff?text=WD".

Definition build_embed (guild : Guild) (title description : string) (color : Color)
    (user : option User) : Embed :=
  {| e_title := title;
     e_description := description;
     e_color := color;
     e_footer := "WatchDog | Guild ID: " +:+ g_id guild;
     e_author := match user with
                 | Some u => u_tag u +:+ " (" +:+ u_id u +:+ ")"
                 | None => "WatchDog System"
                 end;
     e_icon := match user with Some u => u_avatar u | None => LOGO_URL end;
     e_thumbnail := u_avatar <$> user |}.

(** [logEvent(guild, title, description, color, user)].  [fetched] is the
    reply of [guild.channels.fetch(channelId)], [sent] the reply of
    [channel.send]; [user] is the [targetUser] the source derives with
    [user.user || user]. *)
Definition logEvent (record : LogRecord)
    (fetched : Exn + option Channel) (sent : Exn + unit) : M unit :=
  let guild := r_guild record in
  s <- get ;;
  match truthy (guildConfig s !! g_id guild) with
  | None => ret tt
  | Some channelId =>
      try_catch
        (channel <- await (FetchChannel (g_id guild) channelId) fetched ;;
         match channel with
         | None => ret tt
         | Some ch =>
             if bool_decide (ch_type ch ≠ 0) then ret tt
             else
               let embed := build_embed guild (r_title record) (r_description record)
                                        (r_color record) (r_user record) in
               await (Send (ch_id ch) embed) sent
         end)
        (fun e =>
           emit (ConsoleError ("❌ Could not log event in guild " +:+ g_name guild
                               +:+ " (ID: " +:+ g_id guild +:+ ", Channel: " +:+ channelId
                               +:+ "): " +:+ exn_message e)) ;;;
           if bool_decide (exn_code e = Some 10003 \/ exn_code e = Some 50001) then
             modify (fun s => set_guildConfig (delete (g_id guild) (guildConfig s)) s) ;;;
             saveConfig
           else ret tt)
  end.

(** ** Audit attribution (index.js lines 185-208) *)

(** The predicate of [fetchedLogs.entries.find]; [now] is [Date.now()],
    read once for the whole (synchronous) scan. *)
Definition entry_matches (types : list AuditLogEvent) (targetId : option string)
    (now : Z) (a : AuditLogEntry) : bool :=
  bool_decide (a_action a ∈ types)
  && (match truthy targetId with
      | None => true
      | Some t => bool_decide (a_targetId a = Some t)
      end)
  && bool_decide (now - a_createdTimestamp a < 5000).

(** Reading an identifier that no enclosing scope binds. *)
Definition unbound {A} (name : string) : M A := throw (ReferenceError name).

(** [types.join(', ')] *)
Definition show_types (types : list AuditLogEvent) : string :=
  join ", " (map (fun k => pretty (event_code k)) types).

(** [getAuditLogExecutor(guild, type, targetId)].  [type] is one kind or an
    array of kinds; [fetched] is the reply of [guild.fetchAuditLogs].

    [types] is declared with [const] inside the [try] block, so it is not
    in scope in the [catch] block: evaluating the argument of
    [console.warn] there reads an unbound identifier. *)
Definition getAuditLogExecutor (guild : Guild)
    (type : AuditLogEvent + list AuditLogEvent) (targetId : option string)
    (now : Z) (fetched : Exn + list AuditLogEntry) : M Attribution :=
  try_catch
    (let types := match type with inl t => [t] | inr ts => ts end in
     entries <- await (FetchAuditLogs (g_id guild) 5 types) fetched ;;
     let auditEntry := List.find (entry_matches types targetId now) entries in
     ret {| executor := match auditEntry with
                        | Some a => a_executor a
                        | None => None
                        end;
            reason := match auditEntry with
                      | Some a => Some (or_else (a_reason a) "No reason provided in Audit Log.")
                      | None => None
                      end |})
    (fun e =>
       types <- unbound "types" ;;
       emit (ConsoleWarn ("⚠️ Failed to fetch Audit Log for types " +:+ show_types types
                          +:+ ": " +:+ exn_message e)) ;;;
       ret {| executor := None; reason := None |}).

(** ** Invite tracking (index.js lines 214-226 and 416-448) *)

(** [new Collection(invites.map(invite => [invite.code, invite.uses]))] *)
Definition snapshot (live : list Invite) : gmap string Z :=
  fold_left (fun m i => <[i_code i := i_uses i]> m) live ∅.

(** [cacheInvites(guild)]; [canManage] is the [ManageGuild] permission
    check, [fetched] the reply of [guild.invites.fetch()]. *)
Definition cacheInvites (guild : Guild) (canManage : bool)
    (fetched : Exn + list Invite) : M unit :=
  if negb canManage then ret tt
  else
    try_catch
      (guildInvites <- await (FetchInvites (g_id guild)) fetched ;;
       modify (fun s => set_invites (<[g_id guild := snapshot guildInvites]> (invites s)) s))
      (fun e =>
         emit (ConsoleError ("❌ Failed to cache invites for " +:+ g_name guild
                             +:+ ": " +:+ exn_message e))).

(** The [for .. of newInvites] loop with its [break]: the first live
    invite whose use count exceeds the cached one ([|| 0] when absent). *)
Definition usedInvite (cachedInvites : gmap string Z) (newInvites : list Invite)
    : option Invite :=
  List.find (fun invite =>
               let oldUses := default 0 (cachedInvites !! i_code invite) in
               bool_decide (oldUses < i_uses invite))
            newInvites.

(** The three outcomes of join attribution, as the handler words them. *)
Definition invite_text (cached : option (gmap string Z)) (newInvites : list Invite)
    : string :=
  match cached with
  | Some cachedInvites =>
      match usedInvite cachedInvites newInvites with
      | Some used =>
          let creator := match i_inviter used with
                         | Some u => u_tag u
                         | None => "System/Unknown"
                         end in
          nl +:+ nl +:+ "**Invite Used:** `" +:+ i_code used +:+ "`" +:+ nl
          +:+ "**Created By:** " +:+ creator +:+ nl
          +:+ "**Uses:** " +:+ pretty (i_uses used)
      | None => nl +:+ nl +:+ "**Invite Used:** Could not determine invite link."
      end
  | None => nl +:+ nl +:+ "⚠️ Invite tracking disabled."
  end.

Definition user_line (tag id : string) : string :=
  "**User:** " +:+ tag +:+ " (" +:+ id +:+ ")" +:+ nl.

(** The [guildMemberAdd] handler; [fetched] is the reply of
    [member.guild.invites.fetch()], awaited only when a snapshot exists. *)
Definition guildMemberAdd (member : Member) (fetched : Exn + list Invite) : M unit :=
  let guildId := g_id (m_guild member) in
  let created := unix_seconds (u_createdAt (m_user member)) in
  let description :=
    user_line (u_tag (m_user member)) (m_id member)
    +:+ "**Account Created:** <t:" +:+ created +:+ ":f> (<t:" +:+ created +:+ ":R>)" in
  s <- get ;;
  let cached := invites s !! guildId in
  tail <- match cached with
          | Some cachedInvites =>
              newInvites <- await (FetchInvites guildId) fetched ;;
              match usedInvite cachedInvites newInvites with
              | Some used =>
                  (* cachedInvites.set(code, invite.uses) on the old snapshot *)
                  modify (fun s => set_invites
                            (<[guildId := <[i_code used := i_uses used]> cachedInvites]>
                               (invites s)) s)
              | None => ret tt
              end ;;;
              modify (fun s => set_invites (<[guildId := snapshot newInvites]> (invites s)) s) ;;;
              ret (invite_text cached newInvites)
          | None => ret (invite_text cached [])
          end ;;
  emit (LogEvent {| r_guild := m_guild member; r_title := "🟢 Member Joined";
                    r_description := description +:+ tail; r_color := Green;
                    r_user := Some (m_user member) |}).

(** ** Event handlers *)

(** [`${executor.tag} (${executor.id})`] *)
Definition tag_id (u : User) : string := u_tag u +:+ " (" +:+ u_id u +:+ ")".

(** The [guildMemberRemove] handler (index.js lines 451-471). *)
Definition guildMemberRemove (member : Member) (now : Z)
    (fetched : Exn + list AuditLogEntry) : M unit :=
  let description :=
    user_line (u_tag (m_user member)) (m_id member)
    +:+ match m_joinedAt member with
        | Some t => "**Joined:** <t:" +:+ unix_seconds t +:+ ":f>" +:+ nl
        | None => "**Joined:** Time unknown" +:+ nl
        end in
  att <- getAuditLogExecutor (m_guild member) (inl MemberKick) (Some (m_id member))
                             now fetched ;;
  let record :=
    match executor att with
    | Some ex =>
        {| r_guild := m_guild member; r_title := "🔨 Member Kicked";
           r_description :=
             description +:+ nl +:+ "**Responsible Mod:** " +:+ tag_id ex +:+ nl
             +:+ "**Reason:** " +:+ or_else (reason att) "No reason provided.";
           r_color := Orange; r_user := Some (m_user member) |}
    | None =>
        {| r_guild := m_guild member; r_title := "🔴 Member Left/Quit";
           r_description := description; r_color := Red;
           r_user := Some (m_user member) |}
    end in
  emit (LogEvent record).

(** [roles.cache.filter(role => !other.roles.cache.has(role.id))] *)
Definition roles_not_in (roles other : list Role) : list Role :=
  List.filter (fun r => negb (bool_decide (role_id r ∈ map role_id other))) roles.

(** [collection.size > 0] *)
Definition nonempty {A} (l : list A) : bool :=
  match l with
  | [] => false
  | _ :: _ => true
  end.

(** [timeout && timeout > new Date()] *)
Definition in_future (timeout : option Z) (now : Z) : bool :=
  match timeout with
  | Some t => bool_decide (now < t)
  | None => false
  end.

(** The [guildMemberUpdate] handler (index.js lines 474-522).

    [communicationDisabledUntil] is a getter that builds a fresh [Date]
    from the stored timestamp (or yields [null]); [!==] on two [Date]
    objects compares identity, so [oldTimeout !== newTimeout] is false
    only when both are [null]. *)
Definition guildMemberUpdate (oldMember newMember : Member) (now : Z)
    (fetched : Exn + list AuditLogEntry) : M unit :=
  if m_partial oldMember || m_partial newMember then ret tt
  else
    let guild := m_guild newMember in
    let user := m_user newMember in
    (* 1. Nickname change and history *)
    (if bool_decide (m_nickname oldMember ≠ m_nickname newMember) then
       recordNickname (Some guild) (Some (m_id newMember))
                      (Some (or_else (m_nickname newMember) (u_username user))) ;;;
       s <- get ;;
       let pastNicks := getNicknameHistory s (g_id guild) (m_id newMember) in
       emit (LogEvent
               {| r_guild := guild; r_title := "📝 Nickname Changed (History Recorded)";
                  r_description :=
                    "**Old Nick:** " +:+ or_else (m_nickname oldMember) "None" +:+ nl
                    +:+ "**New Nick:** " +:+ or_else (m_nickname newMember) "None"
                    +:+ nl +:+ nl +:+ "**Past Nicknames:** " +:+ pastNicks;
                  r_color := Blue; r_user := Some user |})
     else ret tt) ;;;
    (* 2. Role changes *)
    let addedRoles := roles_not_in (m_roles newMember) (m_roles oldMember) in
    let removedRoles := roles_not_in (m_roles oldMember) (m_roles newMember) in
    (if nonempty addedRoles || nonempty removedRoles then
       let roleDetails :=
         (if nonempty addedRoles then
            "**Roles Added:** " +:+ join ", " (map role_name addedRoles) +:+ nl
          else "")
         +:+ (if nonempty removedRoles then
                "**Roles Removed:** " +:+ join ", " (map role_name removedRoles) +:+ nl
              else "") in
       emit (LogEvent
               {| r_guild := guild; r_title := "🛡️ Member Roles Updated";
                  r_description := user_line (u_tag user) (m_id newMember) +:+ roleDetails;
                  r_color := LuminousVividPink; r_user := Some user |})
     else ret tt) ;;;
    (* 3. Timeout *)
    let oldTimeout := m_communicationDisabledUntil oldMember in
    let newTimeout := m_communicationDisabledUntil newMember in
    match oldTimeout, newTimeout with
    | None, None => ret tt
    | _, _ =>
        att <- getAuditLogExecutor guild (inl MemberUpdate) (Some (m_id newMember))
                                   now fetched ;;
        let moderator := match executor att with
                         | Some ex => tag_id ex
                         | None => "Unknown Moderator"
                         end in
        if in_future newTimeout now then
          let untilTimestamp := unix_seconds (default 0 newTimeout) in
          emit (LogEvent
                  {| r_guild := guild; r_title := "⏳ Member Timed Out";
                     r_description :=
                       user_line (u_tag user) (m_id newMember)
                       +:+ "**Moderator:** " +:+ moderator +:+ nl
                       +:+ "**Until:** <t:" +:+ untilTimestamp +:+ ":f> (<t:"
                       +:+ untilTimestamp +:+ ":R>)" +:+ nl
                       +:+ "**Reason:** " +:+ or_else (reason att) "No reason provided.";
                     r_color := DarkOrange; r_user := Some user |})
        else if in_future oldTimeout now then
          emit (LogEvent
                  {| r_guild := guild; r_title := "✅ Timeout Ended/Removed";
                     r_description :=
                       user_line (u_tag user) (m_id newMember)
                       +:+ "**Action Performed By:** " +:+ moderator +:+ nl
                       +:+ "**Reason:** Timeout lifted/expired.";
                     r_color := Green; r_user := Some user |})
        else ret tt
    end.

Definition fence : string := "```".

(** [author && author.bot && author.id !== client.user.id]: the author
    exists and is a bot other than this bot. *)
Definition other_bot (author : option User) (clientUserId : string) : bool :=
  match author with
  | Some a => u_bot a && bool_decide (u_id a ≠ clientUserId)
  | None => false
  end.

(** The [messageDelete] handler (index.js lines 527-562); [clientUserId]
    is [client.user.id]. *)
Definition messageDelete (message : Message) (clientUserId : string) (now : Z)
    (fetched : Exn + list AuditLogEntry) : M unit :=
  match msg_guild message with
  | None => ret tt
  | Some guild =>
      if other_bot (msg_author message) clientUserId then ret tt
      else
        att <- getAuditLogExecutor guild (inl MessageBulkDelete)
                                   (Some (msg_channelId message)) now fetched ;;
        match executor att with
        | Some bulkExecutor => ret tt
        | None =>
            let authorTag := match msg_author message with
                             | Some a => u_tag a | None => "Unknown/Cached" end in
            let authorId := match msg_author message with
                            | Some a => u_id a | None => "Unknown" end in
            let isBot := match msg_author message with
                         | Some a => u_bot a | None => false end in
            let head :=
              "**Author:** " +:+ authorTag +:+ " (" +:+ authorId +:+ ") "
              +:+ (if isBot then "(BOT)" else "") +:+ nl
              +:+ "**Channel:** " +:+ channel_mention (msg_channelId message) +:+ nl in
            let content :=
              match truthy (msg_content message) with
              | Some c => nl +:+ "**Content:** " +:+ nl +:+ fence +:+ nl
                          +:+ substring 0 1000 c +:+ nl +:+ fence
              | None => ""
              end in
            let attachments :=
              if nonempty (msg_attachments message) then
                nl +:+ "**Deleted Attachments:** ("
                +:+ pretty (Z.of_nat (length (msg_attachments message))) +:+ " files)" +:+ nl
                +:+ fold_left (fun acc a => acc +:+ "- [" +:+ att_name a +:+ "]("
                                            +:+ att_url a +:+ ")" +:+ nl)
                              (msg_attachments message) ""
              else match truthy (msg_content message) with
                   | Some _ => ""
                   | None => nl +:+ "**Content:** (Unknown/Empty)"
                   end in
            emit (LogEvent {| r_guild := guild; r_title := "🗑️ Message Deleted";
                              r_description := head +:+ content +:+ attachments;
                              r_color := Red; r_user := msg_author message |})
        end
  end.

(** [if (differs) changes.push(line)] for one tracked field. *)
Definition push_if (differs : bool) (line : string) (changes : list string)
    : list string :=
  if differs then changes ++ [line] else changes.

Definition code_span (s : string) : string := "`" +:+ s +:+ "`".

(** The callback of [newPerms.filter] in [channelUpdate]. *)
Definition override_changed (oldPerms : gmap string Overwrite)
    (entry : string * Overwrite) : bool :=
  match oldPerms !! entry.1 with
  | None => true
  | Some oldOverride =>
      bool_decide (ow_allow oldOverride ≠ ow_allow entry.2)
      || bool_decide (ow_deny oldOverride ≠ ow_deny entry.2)
  end.

(** The [changes] array of [channelUpdate]. *)
Definition channel_changes (oldChannel newChannel : Channel) : list string :=
  let changes := [] in
  let changes :=
    push_if (bool_decide (ch_name oldChannel ≠ ch_name newChannel))
      ("Name changed from " +:+ code_span (ch_name oldChannel)
       +:+ " to " +:+ code_span (ch_name newChannel)) changes in
  let changes :=
    push_if (bool_decide (ch_topic oldChannel ≠ ch_topic newChannel))
      "Topic was modified." changes in
  let changes :=
    push_if (bool_decide (ch_rateLimitPerUser oldChannel ≠ ch_rateLimitPerUser newChannel))
      ("Slowmode changed from " +:+ code_span (pretty (ch_rateLimitPerUser oldChannel) +:+ "s")
       +:+ " to " +:+ code_span (pretty (ch_rateLimitPerUser newChannel) +:+ "s")) changes in
  (* permission override changes *)
  let oldPerms := ch_permissionOverwrites oldChannel in
  let newPerms := ch_permissionOverwrites newChannel in
  if bool_decide (size oldPerms ≠ size newPerms) then
    changes ++ ["Permission Overrides: Count changed from "
                +:+ pretty (Z.of_nat (size oldPerms)) +:+ " to "
                +:+ pretty (Z.of_nat (size newPerms)) +:+ "."]
  else
    let changedPerms :=
      filter (fun entry => override_changed oldPerms entry = true) newPerms in
    push_if (bool_decide (0 < size changedPerms)%nat)
      ("Permission Overrides: " +:+ pretty (Z.of_nat (size changedPerms))
       +:+ " roles/users had their channel permissions modified.")
      changes.

Definition changes_block (changes : list string) : string :=
  "**Changes:**" +:+ nl +:+ "- " +:+ join (nl +:+ "- ") changes.

(** The [channelUpdate] handler (index.js lines 622-662). *)
Definition channelUpdate (oldChannel newChannel : Channel) (now : Z)
    (fetched : Exn + list AuditLogEntry) : M unit :=
  match ch_guild newChannel with
  | None => ret tt
  | Some guild =>
      if ch_partial oldChannel || ch_partial newChannel then ret tt
      else
        let changes := channel_changes oldChannel newChannel in
        if bool_decide (length changes = 0%nat) then ret tt
        else
          att <- getAuditLogExecutor guild (inl ChannelUpdate) (Some (ch_id newChannel))
                                     now fetched ;;
          let mod_ := match executor att with
                      | Some ex => tag_id ex | None => "Unknown" end in
          emit (LogEvent
                  {| r_guild := guild; r_title := "⚙️ Channel Settings Updated";
                     r_description :=
                       "**Channel:** " +:+ ch_name newChannel +:+ " ("
                       +:+ channel_mention (ch_id newChannel) +:+ ")" +:+ nl
                       +:+ "**Moderator:** " +:+ mod_ +:+ nl +:+ nl +:+ changes_block changes;
                     r_color := Yellow; r_user := None |})
  end.

(** The [changes] array of [roleUpdate]. *)
Definition role_changes (oldRole newRole : Role) : list string :=
  let changes := [] in
  let changes :=
    push_if (bool_decide (role_name oldRole ≠ role_name newRole))
      ("Name changed from " +:+ code_span (role_name oldRole)
       +:+ " to " +:+ code_span (role_name newRole)) changes in
  let changes :=
    push_if (bool_decide (role_color oldRole ≠ role_color newRole))
      ("Color changed from " +:+ code_span ("#" +:+ toString16Upper (role_color oldRole))
       +:+ " to " +:+ code_span ("#" +:+ toString16Upper (role_color newRole))) changes in
  (* !oldRole.permissions.equals(newRole.permissions) *)
  push_if (negb (bool_decide (role_permissions oldRole = role_permissions newRole)))
    "Permissions were modified." changes.

(** The [roleUpdate] handler (index.js lines 681-702); [guild] is
    [newRole.guild]. *)
Definition roleUpdate (guild : Guild) (oldRole newRole : Role) (now : Z)
    (fetched : Exn + list AuditLogEntry) : M unit :=
  let changes := role_changes oldRole newRole in
  if bool_decide (length changes = 0%nat) then ret tt
  else
    att <- getAuditLogExecutor guild (inl RoleUpdate) (Some (role_id newRole))
                               now fetched ;;
    let mod_ := match executor att with
                | Some ex => tag_id ex | None => "Unknown" end in
    emit (LogEvent
            {| r_guild := guild; r_title := "⚙️ Role Settings Updated";
               r_description :=
                 "**Role:** " +:+ role_name newRole +:+ " (" +:+ role_id newRole +:+ ")" +:+ nl
                 +:+ "**Moderator:** " +:+ mod_ +:+ nl +:+ nl +:+ changes_block changes;
               r_color := Yellow; r_user := None |}).

(** [levels[verificationLevel]] inside a template literal. *)
Definition level_name (v : Z) : string :=
  if v <? 0 then "undefined"
  else nth (Z.to_nat v) ["None"; "Low"; "Medium"; "High"; "Highest"] "undefined".

(** The [changes] array of [guildUpdate]. *)
Definition guild_changes (oldGuild newGuild : GuildSettings) : list string :=
  let changes := [] in
  let changes :=
    push_if (bool_decide (g_name (gs_guild oldGuild) ≠ g_name (gs_guild newGuild)))
      ("Name changed from " +:+ code_span (g_name (gs_guild oldGuild))
       +:+ " to " +:+ code_span (g_name (gs_guild newGuild))) changes in
  let changes :=
    push_if (bool_decide (gs_iconURL oldGuild ≠ gs_iconURL newGuild))
      "Icon changed." changes in
  let changes :=
    push_if (bool_decide (gs_verificationLevel oldGuild ≠ gs_verificationLevel newGuild))
      ("Verification Level changed from "
       +:+ code_span (level_name (gs_verificationLevel oldGuild))
       +:+ " to " +:+ code_span (level_name (gs_verificationLevel newGuild))) changes in
  push_if (bool_decide (gs_systemChannelId oldGuild ≠ gs_systemChannelId newGuild))
    ("System Channel changed to "
     +:+ match gs_systemChannel newGuild with
         | Some c => channel_mention c
         | None => "None"
         end) changes.

(** The [guildUpdate] handler (index.js lines 705-729); the lookup is made
    without a target id. *)
Definition guildUpdate (oldGuild newGuild : GuildSettings) (now : Z)
    (fetched : Exn + list AuditLogEntry) : M unit :=
  let changes := guild_changes oldGuild newGuild in
  if bool_decide (length changes = 0%nat) then ret tt
  else
    att <- getAuditLogExecutor (gs_guild newGuild) (inl GuildUpdate) None now fetched ;;
    let mod_ := match executor att with
                | Some ex => tag_id ex | None => "Unknown/Automatic" end in
    emit (LogEvent
            {| r_guild := gs_guild newGuild; r_title := "🌐 Server Settings Updated";
               r_description :=
                 "**Moderator:** " +:+ mod_ +:+ nl +:+ nl +:+ changes_block changes;
               r_color := DarkGreen; r_user := None |}).

(** ** Vocabulary of the properties *)

(** The log records a handler emitted: its calls to [logEvent], in order. *)
Definition emitted (t : list Action) : list LogRecord :=
  omap (fun a => match a with LogEvent r => Some r | _ => None end) t.

(** The audit-log requests a handler issued. *)
Definition lookups (t : list Action) : list Action :=
  List.filter (fun a => match a with FetchAuditLogs _ _ _ => true | _ => false end) t.

(** The history of one user after a sequence of calls, by the rule of the
    data model alone. *)
Definition history_after (calls : list NickCall) (g u : string)
    (start : list string) : list string :=
  fold_left (fun l c => match call_target c g u with
                        | Some nick => prepend_unique nick l
                        | None => l
                        end) calls start.

(** A candidate entry in the words of the specification: its kind is in
    the requested set, its target is the given one when one is given, and
    it is less than five seconds old. *)
Definition spec_candidate (types : list AuditLogEvent) (targetId : option string)
    (now : Z) (a : AuditLogEntry) : Prop :=
  a_action a ∈ types
  /\ (forall t, truthy targetId = Some t -> a_targetId a = Some t)
  /\ now - a_createdTimestamp a < 5000.

(** [x] is the first element of [l] that satisfies [P]. *)
Definition first_such {A} (P : A -> Prop) (l : list A) (x : A) : Prop :=
  exists pre post, l = (pre ++ x :: post)%list /\ P x /\ Forall (fun y => ~ P y) pre.

(** The kinds a request asks for. *)
Definition requested (type : AuditLogEvent + list AuditLogEvent) : list AuditLogEvent :=
  match type with
  | inl t => [t]
  | inr ts => ts
  end.

(** The error that makes a delivery fail, if any: the rejection of the
    channel fetch, or of the send to a fetched text channel. *)
Definition delivery_error (fetched : Exn + option Channel) (sent : Exn + unit)
    : option Exn :=
  match fetched with
  | inl e => Some e
  | inr None => None
  | inr (Some ch) =>
      if bool_decide (ch_type ch ≠ 0) then None
      else match sent with
           | inl e => Some e
           | inr _ => None
           end
  end.

(** Unknown Channel (10003) or Missing Access (50001). *)
Definition destination_unreachable (e : Exn) : Prop :=
  exn_code e = Some 10003 \/ exn_code e = Some 50001.

(** No tracked field of a channel, of a role, of a guild differs. *)
Definition same_tracked_channel (old new : Channel) : Prop :=
  ch_name old = ch_name new
  /\ ch_topic old = ch_topic new
  /\ ch_rateLimitPerUser old = ch_rateLimitPerUser new
  /\ ch_permissionOverwrites old = ch_permissionOverwrites new.

Definition same_tracked_role (old new : Role) : Prop :=
  role_name old = role_name new
  /\ role_color old = role_color new
  /\ role_permissions old = role_permissions new.

Definition same_tracked_guild (old new : GuildSettings) : Prop :=
  g_name (gs_guild old) = g_name (gs_guild new)
  /\ gs_iconURL old = gs_iconURL new
  /\ gs_verificationLevel old = gs_verificationLevel new
  /\ gs_systemChannelId old = gs_systemChannelId new.

(** A handler that returns at once: nothing requested, nothing emitted,
    nothing changed. *)
Definition silent (s : State) : Outcome unit :=
  {| completion := Return tt; final := s; trace := [] |}.

(** ** Sample data *)

Module Sample.

Definition empty_disk : Disk := {| config_json := Absent; history_json := Absent |}.

Definition guild : Guild := {| g_id := "1001"; g_name := "Kennel" |}.

Definition alice : User :=
  {| u_id := "2001"; u_tag := "alice#0001"; u_username := "alice"; u_bot := false;
     u_createdAt := 1600000000000; u_avatar := "https://cdn.example/alice.png" |}.

Definition moderator : User :=
  {| u_id := "2002"; u_tag := "mod#0002"; u_username := "mod"; u_bot := false;
     u_createdAt := 1500000000000; u_avatar := "https://cdn.example/mod.png" |}.

Definition otherbot : User :=
  {| u_id := "2003"; u_tag := "musicbot#0003"; u_username := "musicbot"; u_bot := true;
     u_createdAt := 1550000000000; u_avatar := "https://cdn.example/bot.png" |}.

(** [client.user.id] *)
Definition watchdog_id : string := "2999".

Definition member (nickname : option string) : Member :=
  {| m_user := alice; m_guild := guild; m_partial := false; m_nickname := nickname;
     m_joinedAt := Some 1650000000000; m_roles := [];
     m_communicationDisabledUntil := None |}.

Definition nick (n : string) : NickCall :=
  {| c_guild := Some guild; c_member := Some (u_id alice); c_nickname := Some n |}.

Definition configured : State :=
  {| guildConfig := {[ "1001" := "3001" ]}; nicknameHistory := ∅; invites := ∅;
     disk := {| config_json := Holds {[ "1001" := "3001" ]}; history_json := Holds ∅ |} |}.

Definition log_channel : Channel :=
  {| ch_id := "3001"; ch_guild := Some guild; ch_partial := false; ch_type := 0;
     ch_name := "logs"; ch_topic := None; ch_rateLimitPerUser := 0;
     ch_permissionOverwrites := ∅ |}.

Definition record : LogRecord :=
  {| r_guild := guild; r_title := "➕ Channel Created"; r_description := "**Name:** general";
     r_color := Green; r_user := None |}.

Definition inviteA : Invite := {| i_code := "A"; i_uses := 5; i_inviter := Some moderator |}.
Definition inviteB (uses : Z) : Invite :=
  {| i_code := "B"; i_uses := uses; i_inviter := None |}.

(** The cached snapshot [{A:5, B:2}]. *)
Definition cached : gmap string Z := {[ "A" := 5; "B" := 2 ]}.

Definition tracking : State :=
  {| guildConfig := ∅; nicknameHistory := ∅; invites := {[ "1001" := cached ]};
     disk := empty_disk |}.

End Sample.

(** ** The setlog command (index.js lines 234-277) *)

(** What a command says back: [message.reply(content)], or an embed sent
    with [channel.send] that carries a title, a description and a colour
    only. *)
Inductive Said : Type :=
  | Reply (content : string)
  | SendEmbed (channelId : string) (title description : string) (color : Color).

(** The command message as [setlog] reads it: [isAdmin] is
    [message.member.permissions.has(Administrator)], [mentioned] is
    [message.mentions.channels.first()], [channels] is
    [message.guild.channels.cache] in its order. *)
Record CommandMessage := {
  cm_guild : Guild;
  cm_isAdmin : bool;
  cm_channel : Channel;
  cm_mentioned : option Channel;
  cm_channels : list Channel
}.

(** [cache.get(arg) || cache.find(ch => ch.name === arg)] *)
Definition resolve_channel (channels : list Channel) (arg : string) : option Channel :=
  match List.find (fun ch => bool_decide (ch_id ch = arg)) channels with
  | Some ch => Some ch
  | None => List.find (fun ch => bool_decide (ch_name ch = arg)) channels
  end.

(** Where [setlog] ends up before it touches the store: a text channel to
    set, or the reply of an early [return]. *)
Definition setlog_target (message : CommandMessage) (args : list string)
    : string + Channel :=
  if negb (cm_isAdmin message) then
    inl "❌ You must be an Administrator to use this command."
  else
    match cm_mentioned message with
    | Some mentionedChannel =>
        if bool_decide (ch_type mentionedChannel = 0) then inr mentionedChannel
        else inl ("❌ The channel you mentioned (" +:+ channel_mention (ch_id mentionedChannel)
                  +:+ ") is not a valid text channel for logging.")
    | None =>
        match truthy (head args) with
        | Some arg =>
            match resolve_channel (cm_channels message) arg with
            | Some resolvedChannel =>
                if bool_decide (ch_type resolvedChannel = 0) then inr resolvedChannel
                else inl "❌ The ID or name you provided corresponds to a channel that is not a text channel."
            | None =>
                inl ("⚠️ Could not find a channel matching " +:+ code_span arg
                     +:+ ". Using the current channel as the log channel.")
            end
        | None => inr (cm_channel message)
        end
    end.

(** [execute] of [setlog].  Every path ends with one awaited reply or
    send, whose answer is [answered]; what was said is returned beside the
    outcome. *)
Definition setlog (message : CommandMessage) (args : list string)
    (answered : Exn + unit) (s : State) : Said * Outcome unit :=
  let finish (s' : State) : Outcome unit :=
    {| completion := match answered with inl e => Throw e | inr _ => Return tt end;
       final := s'; trace := [] |} in
  match setlog_target message args with
  | inl content => (Reply content, finish s)
  | inr targetChannel =>
      let stored :=
        final (bind (modify (fun s => set_guildConfig
                                        (<[g_id (cm_guild message) := ch_id targetChannel]>
                                           (guildConfig s)) s))
                    (fun _ => saveConfig) s) in
      (SendEmbed (ch_id (cm_channel message)) "✅ Log Channel Set!"
         ("The channel **" +:+ ch_name targetChannel +:+ "** ("
          +:+ channel_mention (ch_id targetChannel)
          +:+ ") has been successfully set as the WatchDog log channel for this server.")
         Green,
       finish stored)
  end.

(** ** Further event handlers *)

(** A message as [messageUpdate] sees it, before or after the edit. *)
Record MessageState := {
  ms_partial : bool;
  ms_author : option User;
  ms_guild : Guild;
  ms_channelId : string;
  ms_content : string;
  ms_pinned : bool;
  ms_url : string
}.

(** Reading a property of [null]. *)
Definition null_property {A} (property : string) : M A :=
  throw (OtherError ("Cannot read properties of null (reading '" +:+ property +:+ "')")).

(** The [messageUpdate] handler (index.js lines 565-599). *)
Definition messageUpdate (oldMessage newMessage : MessageState) (now : Z)
    (fetched : Exn + list AuditLogEntry) : M unit :=
  if ms_partial oldMessage || ms_partial newMessage
     || match ms_author oldMessage with Some a => u_bot a | None => false end
  then ret tt
  else
    (* 1. content edit *)
    (if bool_decide (ms_content oldMessage ≠ ms_content newMessage) then
       author <- match ms_author oldMessage with
                 | Some a => ret a
                 | None => null_property "tag"
                 end ;;
       emit (LogEvent
               {| r_guild := ms_guild oldMessage; r_title := "✍️ Message Edited";
                  r_description :=
                    "**Author:** " +:+ tag_id author +:+ nl
                    +:+ "**Channel:** " +:+ channel_mention (ms_channelId oldMessage) +:+ nl
                    +:+ nl +:+ "**Old Content:** " +:+ nl +:+ fence +:+ nl
                    +:+ substring 0 500 (ms_content oldMessage) +:+ nl +:+ fence +:+ nl
                    +:+ "**New Content:** " +:+ nl +:+ fence +:+ nl
                    +:+ substring 0 500 (ms_content newMessage) +:+ nl +:+ fence +:+ nl
                    +:+ "[Jump to Message](" +:+ ms_url newMessage +:+ ")";
                  r_color := Blue; r_user := Some author |})
     else ret tt) ;;;
    (* 2. pin and unpin *)
    if bool_decide (ms_pinned oldMessage ≠ ms_pinned newMessage) then
      let auditLogType := if ms_pinned newMessage then MessagePin else MessageUnpin in
      att <- getAuditLogExecutor (ms_guild newMessage) (inl auditLogType)
                                 (Some (ms_channelId newMessage)) now fetched ;;
      author <- match ms_author oldMessage with
                | Some a => ret a
                | None => null_property "tag"
                end ;;
      emit (LogEvent
              {| r_guild := ms_guild newMessage;
                 r_title := if ms_pinned newMessage then "📌 Message Pinned"
                            else "📎 Message Unpinned";
                 r_description :=
                   "**Action Performed By:** "
                   +:+ match executor att with
                       | Some ex => or_else (Some (u_tag ex)) "Unknown"
                       | None => "Unknown"
                       end +:+ nl
                   +:+ "**Channel:** " +:+ channel_mention (ms_channelId newMessage) +:+ nl
                   +:+ "**Author:** " +:+ tag_id author +:+ nl
                   +:+ "[Jump to Message](" +:+ ms_url newMessage +:+ ")";
                 r_color := if ms_pinned newMessage then Purple else Grey;
                 r_user := match executor att with
                           | Some ex => Some ex
                           | None => Some author
                           end |})
    else ret tt.

(** The [channelDelete] handler (index.js lines 609-619). *)
Definition channelDelete (channel : Channel) (now : Z)
    (fetched : Exn + list AuditLogEntry) : M unit :=
  match ch_guild channel with
  | None => ret tt
  | Some guild =>
      att <- getAuditLogExecutor guild (inl ChannelDelete) (Some (ch_id channel))
                                 now fetched ;;
      let description := "**Name:** " +:+ ch_name channel +:+ nl
                         +:+ "**ID:** " +:+ ch_id channel +:+ nl
                         +:+ "**Type:** " +:+ pretty (ch_type channel) in
      emit (LogEvent
              {| r_guild := guild; r_title := "➖ Channel Deleted";
                 r_description :=
                   match executor att with
                   | Some ex => description +:+ nl +:+ "**Responsible Mod:** " +:+ tag_id ex
                   | None => description
                   end;
                 r_color := Red; r_user := None |})
  end.

(** The [roleDelete] handler (index.js lines 670-679); [guild] is
    [role.guild]. *)
Definition roleDelete (guild : Guild) (role : Role) (now : Z)
    (fetched : Exn + list AuditLogEntry) : M unit :=
  att <- getAuditLogExecutor guild (inl RoleDelete) (Some (role_id role)) now fetched ;;
  let description := "**Name:** " +:+ role_name role +:+ nl +:+ "**ID:** " +:+ role_id role in
  emit (LogEvent
          {| r_guild := guild; r_title := "➖ Role Deleted";
             r_description :=
               match executor att with
               | Some ex => description +:+ nl +:+ "**Responsible Mod:** " +:+ tag_id ex
               | None => description
               end;
             r_color := Red; r_user := None |}).

(** A [GuildBan]. *)
Record Ban := {
  ban_guild : Guild;
  ban_user : User;
  ban_reason : option string
}.

(** [reason || ban.reason || 'No reason provided.'] *)
Definition ban_log_reason (att : Attribution) (ban : Ban) : string :=
  match truthy (reason att) with
  | Some r => r
  | None => or_else (ban_reason ban) "No reason provided."
  end.

(** The [guildBanAdd] handler (index.js lines 733-744).  [darkRed] is
    [Colors.DarkRed], which is not among the colours named above. *)
Definition guildBanAdd (ban : Ban) (now : Z)
    (fetched : Exn + list AuditLogEntry) (darkRed : Color) : M unit :=
  att <- getAuditLogExecutor (ban_guild ban) (inl MemberBanAdd)
                             (Some (u_id (ban_user ban))) now fetched ;;
  let mod_ := match executor att with
              | Some ex => tag_id ex | None => "Unknown" end in
  emit (LogEvent
          {| r_guild := ban_guild ban; r_title := "🔨 User Banned";
             r_description :=
               "**User:** " +:+ tag_id (ban_user ban) +:+ nl
               +:+ "**Responsible Mod:** " +:+ mod_ +:+ nl
               +:+ "**Reason:** " +:+ ban_log_reason att ban;
             r_color := darkRed; r_user := Some (ban_user ban) |}).

(** The [guildBanRemove] handler (index.js lines 746-755). *)
Definition guildBanRemove (ban : Ban) (now : Z)
    (fetched : Exn + list AuditLogEntry) : M unit :=
  att <- getAuditLogExecutor (ban_guild ban) (inl MemberBanRemove)
                             (Some (u_id (ban_user ban))) now fetched ;;
  let mod_ := match executor att with
              | Some ex => tag_id ex | None => "Unknown" end in
  emit (LogEvent
          {| r_guild := ban_guild ban; r_title := "🔓 User Unbanned";
             r_description :=
               "**User:** " +:+ tag_id (ban_user ban) +:+ nl
               +:+ "**Responsible Mod:** " +:+ mod_;
             r_color := Yellow; r_user := Some (ban_user ban) |}).

(** A [VoiceState]; the flags are [boolean | null] in discord.js. *)
Record VoiceState := {
  vs_member : option Member;
  vs_guild : option Guild;
  vs_channelId : option string;
  vs_mute : option bool;
  vs_serverMute : option bool;
  vs_deaf : option bool;
  vs_serverDeaf : option bool;
  vs_streaming : option bool;
  vs_selfVideo : option bool
}.

(** JS truthiness of a nullable flag. *)
Definition flag (b : option bool) : bool := default false b.

(** [`${state.channel}`]: the mention of the channel, or [null]. *)
Definition voice_channel (state : VoiceState) : string :=
  match vs_channelId state with
  | Some id => channel_mention id
  | None => "null"
  end.

(** The [voiceStateUpdate] handler (index.js lines 758-806); [lightGrey]
    is [Colors.LightGrey], which is not among the colours named above. *)
Definition voiceStateUpdate (oldState newState : VoiceState) (lightGrey : Color)
    : M unit :=
  match vs_member newState, vs_guild newState with
  | Some member, Some guild =>
      let say title description color :=
        emit (LogEvent {| r_guild := guild; r_title := title;
                          r_description := description; r_color := color;
                          r_user := Some (m_user member) |}) in
      (* 1. join, leave, switch *)
      (match vs_channelId oldState, vs_channelId newState with
       | None, Some _ =>
           say "🔊 Voice Joined" ("**Channel:** " +:+ voice_channel newState) Green
       | Some _, None =>
           say "🔇 Voice Left" ("**Channel:** " +:+ voice_channel oldState) Red
       | Some o, Some n =>
           if bool_decide (o ≠ n) then
             say "🔁 Voice Switched"
                 ("**Old Channel:** " +:+ voice_channel oldState +:+ nl
                  +:+ "**New Channel:** " +:+ voice_channel newState) Blue
           else ret tt
       | None, None => ret tt
       end) ;;;
      (* 2. mute, deafen, stream, video *)
      if bool_decide (vs_channelId oldState ≠ vs_channelId newState) then ret tt
      else
        let description :=
          user_line (u_tag (m_user member)) (m_id member)
          +:+ "**Channel:** " +:+ voice_channel newState +:+ nl in
        if bool_decide (vs_mute oldState ≠ vs_mute newState) then
          say (if flag (vs_mute newState) then "❌ User Muted" else "✅ User Unmuted")
              (description +:+ "**Type:** "
               +:+ (if flag (vs_serverMute newState) then "Server" else "Self") +:+ " Mute")
              (if flag (vs_serverMute newState) then Orange else lightGrey)
        else if bool_decide (vs_deaf oldState ≠ vs_deaf newState) then
          say (if flag (vs_deaf newState) then "❌ User Deafened" else "✅ User Undeafened")
              (description +:+ "**Type:** "
               +:+ (if flag (vs_serverDeaf newState) then "Server" else "Self") +:+ " Deafen")
              (if flag (vs_serverDeaf newState) then Orange else lightGrey)
        else if bool_decide (vs_streaming oldState ≠ vs_streaming newState) then
          say (if flag (vs_streaming newState) then "📺 Stream Started" else "🛑 Stream Stopped")
              description lightGrey
        else if bool_decide (vs_selfVideo oldState ≠ vs_selfVideo newState) then
          say (if flag (vs_selfVideo newState) then "📹 Video Started" else "🛑 Video Stopped")
              description lightGrey
        else ret tt
  | _, _ => ret tt
  end.

Record Activity := {
  act_name : string;
  act_type : Z;
  act_details : option string
}.

Record Presence := {
  p_guild : option Guild;
  p_member : option Member;
  p_activities : list Activity
}.

(** The [presenceUpdate] handler (index.js lines 809-856); [oldPresence]
    may be [null]. *)
Definition presenceUpdate (oldPresence : option Presence) (newPresence : Presence)
    : M unit :=
  match p_guild newPresence, p_member newPresence with
  | Some guild, Some member =>
      let user := m_user member in
      s <- get ;;
      match truthy (guildConfig s !! g_id guild) with
      | None => ret tt
      | Some _ =>
          let description := user_line (u_tag user) (u_id user) in
          let newActivity := head (p_activities newPresence) in
          let oldActivity := oldPresence ≫= (fun p => head (p_activities p)) in
          if bool_decide (act_name <$> newActivity ≠ act_name <$> oldActivity
                          \/ act_type <$> newActivity ≠ act_type <$> oldActivity) then
            match newActivity, oldActivity with
            | Some new, _ =>
                let activityType :=
                  if bool_decide (act_type new = 0) then "Playing"
                  else if bool_decide (act_type new = 1) then "Streaming"
                  else if bool_decide (act_type new = 4) then "Custom Status"
                  else "Activity" in
                emit (LogEvent
                        {| r_guild := guild; r_title := "🕹️ " +:+ activityType +:+ " Started";
                           r_description :=
                             description +:+ nl +:+ "**Activity:** " +:+ act_name new
                             +:+ match truthy (act_details new) with
                                 | Some d => nl +:+ "**Details:** " +:+ d
                                 | None => ""
                                 end;
                           r_color := if bool_decide (act_type new = 1)
                                      then LuminousVividPink else Green;
                           r_user := Some user |})
            | None, Some old =>
                emit (LogEvent
                        {| r_guild := guild; r_title := "🛑 Activity Ended";
                           r_description :=
                             description +:+ nl +:+ "**Activity:** " +:+ act_name old;
                           r_color := Red; r_user := Some user |})
            | None, None => ret tt
            end
          else ret tt
      end
  | _, _ => ret tt
  end.

(** ** Vocabulary of the further properties *)

(** Memory and files agree: the files hold what the two caches hold. *)
Definition in_sync (s : State) : Prop :=
  disk s = {| config_json := Holds (guildConfig s);
              history_json := Holds (nicknameHistory s) |}.

(** No tracked field of a member differs: nickname, the ids of the roles,
    and no timeout on either side. *)
Definition same_tracked_member (old new : Member) : Prop :=
  m_nickname old = m_nickname new
  /\ map role_id (m_roles old) = map role_id (m_roles new)
  /\ m_communicationDisabledUntil old = None
  /\ m_communicationDisabledUntil new = None.





(** The invite fetches a handler issued. *)
Definition invite_fetches (t : list Action) : list Action :=
  List.filter (fun a => match a with FetchInvites _ => true | _ => false end) t.

Module Fixture.

Definition admin_message : CommandMessage :=
  {| cm_guild := Sample.guild; cm_isAdmin := true; cm_channel := Sample.log_channel;
     cm_mentioned := None; cm_channels := [Sample.log_channel] |}.

Definition idle : VoiceState :=
  {| vs_member := Some (Sample.member None); vs_guild := Some Sample.guild;
     vs_channelId := Some "3005"; vs_mute := Some false; vs_serverMute := Some false;
     vs_deaf := Some false; vs_serverDeaf := Some false; vs_streaming := Some false;
     vs_selfVideo := Some false |}.

Definition synced : State :=
  {| guildConfig := {[ "1001" := "3001" ]}; nicknameHistory := ∅; invites := ∅;
     disk := {| config_json := Holds {[ "1001" := "3001" ]}; history_json := Holds ∅ |} |}.

End Fixture.

(** * Properties *)

(** ** Laws of the handler monad *)

Lemma bind_get {B} (k : State -> M B) (s : State) : bind get k s = k s s.
Proof. unfold bind, get. cbn. by destruct (k s s). Qed.

Lemma bind_ret {A B} (a : A) (k : A -> M B) (s : State) : bind (ret a) k s = k a s.
Proof. unfold bind, ret. cbn. by destruct (k a s). Qed.

(** Runs the monadic plumbing of a handler whose platform replies are
    known, leaving the texts of the records untouched. *)
Ltac run_handler :=
  unfold bind, try_catch, await, modify, ret, emit, throw, get;
  cbn [completion final trace app].

Ltac read_trace :=
  unfold emitted, lookups;
  cbn [omap list_omap List.filter app].

(** ** Nickname history *)

Section NicknameHistory.

Implicit Types (h : gmap string (gmap string (list string))).
Implicit Types (g u nick : string) (l : list string).

Lemma history_of_ensure_guild h g g' u' :
  history_of (ensure_guild g h) g' u' = history_of h g' u'.
Proof.
  unfold ensure_guild, history_of.
  destruct (h !! g) eqn:Hg; [done|].
  destruct (decide (g = g')) as [->|Hne].
  - rewrite lookup_insert_eq, Hg. by rewrite lookup_empty.
  - by rewrite lookup_insert_ne.
Qed.

Lemma history_of_ensure_user h g u g' u' :
  history_of (ensure_user g u h) g' u' = history_of h g' u'.
Proof.
  unfold ensure_user, history_of.
  destruct (h !! g) as [users|] eqn:Hg; [|done].
  destruct (users !! u) eqn:Hu; [done|].
  destruct (decide (g = g')) as [->|Hne].
  - rewrite lookup_insert_eq, Hg.
    destruct (decide (u = u')) as [->|Hne'].
    + by rewrite lookup_insert_eq, Hu.
    + by rewrite lookup_insert_ne.
  - by rewrite lookup_insert_ne.
Qed.

Lemma ensure_guild_is_Some h g : is_Some (ensure_guild g h !! g).
Proof.
  unfold ensure_guild. destruct (h !! g) eqn:Hg.
  - rewrite Hg. eauto.
  - rewrite lookup_insert_eq. eauto.
Qed.

Lemma ensure_user_is_Some h g u :
  is_Some (h !! g) -> is_Some (ensure_user g u h !! g).
Proof.
  intros [users Hg]. unfold ensure_user. rewrite Hg.
  destruct (users !! u).
  - rewrite Hg. eauto.
  - rewrite lookup_insert_eq. eauto.
Qed.

Lemma history_of_store_history h g u l g' u' :
  is_Some (h !! g) ->
  history_of (store_history g u l h) g' u' =
  if bool_decide (g = g' /\ u = u') then l else history_of h g' u'.
Proof.
  intros [users Hg]. unfold store_history, history_of. rewrite Hg.
  destruct (decide (g = g')) as [->|Hne].
  - rewrite lookup_insert_eq, Hg.
    destruct (decide (u = u')) as [->|Hne'].
    + rewrite lookup_insert_eq. by rewrite bool_decide_eq_true_2.
    + rewrite lookup_insert_ne by done.
      rewrite bool_decide_eq_false_2; [done|]. by intros [_ ?].
  - rewrite lookup_insert_ne by done.
    rewrite bool_decide_eq_false_2; [done|]. by intros [? _].
Qed.

Lemma truthy_Some v s : truthy v = Some s -> v = Some s /\ s <> "".
Proof.
  unfold truthy. destruct v as [x|]; [|done].
  case_bool_decide; [done|]. intros [= ->]. done.
Qed.

(** The effect of one call on every stored list. *)
Lemma run_call_history (s : State) (c : NickCall) g u :
  history_of (nicknameHistory (run_call s c)) g u =
  match call_target c g u with
  | Some nick => prepend_unique nick (history_of (nicknameHistory s) g u)
  | None => history_of (nicknameHistory s) g u
  end.
Proof.
  unfold run_call, call_target, recordNickname.
  destruct (c_guild c) as [gd|]; [|done].
  destruct (c_member c) as [uid|]; [|done].
  destruct (truthy (c_nickname c)) as [nick|]; [|done].
  cbn [bind modify get final completion set_nicknameHistory nicknameHistory].
  set (h2 := ensure_user (g_id gd) uid (ensure_guild (g_id gd) (nicknameHistory s))).
  assert (Hsame : forall g' u', history_of h2 g' u' = history_of (nicknameHistory s) g' u').
  { intros. unfold h2. by rewrite history_of_ensure_user, history_of_ensure_guild. }
  assert (Hsome : is_Some (h2 !! g_id gd)).
  { apply ensure_user_is_Some, ensure_guild_is_Some. }
  unfold prepend_unique.
  destruct (bool_decide (nick ∈ history_of h2 (g_id gd) uid)) eqn:Hin;
    cbn [bind modify get ret saveConfig final completion set_nicknameHistory
         set_disk nicknameHistory].
  - rewrite Hsame. destruct (bool_decide (g_id gd = g /\ uid = u)) eqn:Ht; [|done].
    apply bool_decide_eq_true in Ht as [<- <-]. by rewrite <- Hsame, Hin.
  - rewrite history_of_store_history by done.
    destruct (bool_decide (g_id gd = g /\ uid = u)) eqn:Ht.
    + apply bool_decide_eq_true in Ht as [<- <-]. by rewrite <- Hsame, Hin.
    + by rewrite Hsame.
Qed.

Lemma hist_ok_nil : hist_ok [].
Proof. split; [simpl; lia|]. split; [constructor|]. by intros ?%elem_of_nil. Qed.

Lemma hist_ok_prepend_unique nick l :
  nick <> "" -> hist_ok l -> hist_ok (prepend_unique nick l).
Proof.
  intros Hne (Hlen & Hnd & Hemp). unfold prepend_unique.
  case_bool_decide as Hin; [done|].
  assert (Hsub : take 20 (nick :: l) `sublist_of` nick :: l) by apply sublist_take.
  split; [rewrite length_take; lia|].
  split.
  - eapply sublist_NoDup; [|exact Hsub]. by constructor.
  - intros Hi. eapply elem_of_sublist in Hi; [|exact Hsub].
    apply elem_of_cons in Hi as [?|?]; [by subst|done].
Qed.

Lemma call_target_nonempty c g u nick : call_target c g u = Some nick -> nick <> "".
Proof.
  unfold call_target.
  destruct (c_guild c); [|done]. destruct (c_member c); [|done].
  destruct (truthy (c_nickname c)) as [n|] eqn:Ht; [|done].
  case_bool_decide; [|done]. intros [= <-]. by apply truthy_Some in Ht as [_ ?].
Qed.

Lemma run_call_store_ok (s : State) (c : NickCall) :
  store_ok (nicknameHistory s) -> store_ok (nicknameHistory (run_call s c)).
Proof.
  intros Hok g u. rewrite run_call_history.
  destruct (call_target c g u) as [nick|] eqn:Ht; [|apply Hok].
  apply hist_ok_prepend_unique; [|apply Hok]. by eapply call_target_nonempty.
Qed.

End NicknameHistory.

Lemma run_calls_history (calls : list NickCall) (s : State) (g u : string) :
  history_of (nicknameHistory (run_calls calls s)) g u =
  history_after calls g u (history_of (nicknameHistory s) g u).
Proof.
  revert s. induction calls as [|c calls IH]; intros s; [done|].
  unfold run_calls, history_after in *. cbn [fold_left].
  rewrite IH. by rewrite run_call_history.
Qed.

Lemma run_calls_store_ok (calls : list NickCall) (s : State) :
  store_ok (nicknameHistory s) -> store_ok (nicknameHistory (run_calls calls s)).
Proof.
  revert s. induction calls as [|c calls IH]; intros s Hok; [done|].
  apply IH. by apply run_call_store_ok.
Qed.

Lemma store_ok_empty : store_ok ∅.
Proof. intros g u. unfold history_of. rewrite lookup_empty. apply hist_ok_nil. Qed.

(** C1. From any store whose lists are well formed (the empty store of a
    fresh process in particular), after every sequence of calls to
    [recordNickname], with any guild, member and nickname arguments, every
    stored list has at most 20 entries, no duplicate and no empty string;
    and the list of each (guild, user) pair is obtained by going through the
    calls in order, prepending a nickname only when it is not yet in the
    list and cutting the list to 20 after each insert, so that entries
    stand in the order of their insertion, latest first. *)
Theorem recordNickname_history_invariant (s0 : State) (calls : list NickCall) :
  store_ok (nicknameHistory s0) ->
  store_ok (nicknameHistory (run_calls calls s0))
  /\ (forall g u,
        history_of (nicknameHistory (run_calls calls s0)) g u =
        history_after calls g u (history_of (nicknameHistory s0) g u))
  /\ (forall nick l,
        prepend_unique nick l = if bool_decide (nick ∈ l) then l else take 20 (nick :: l)).
Proof.
  intros Hok. split; [by apply run_calls_store_ok|].
  split; [intros; apply run_calls_history|done].
Qed.

(** The invariant at work from the empty store of a fresh process. *)
Lemma recordNickname_history_invariant_witness :
  let calls := [Sample.nick "Rex"; Sample.nick "Fido"; Sample.nick "Rex"; Sample.nick ""] in
  let s0 := initial_state Sample.empty_disk in
  store_ok (nicknameHistory (run_calls calls s0))
  /\ (forall g u,
        history_of (nicknameHistory (run_calls calls s0)) g u =
        history_after calls g u (history_of (nicknameHistory s0) g u))
  /\ (forall nick l,
        prepend_unique nick l = if bool_decide (nick ∈ l) then l else take 20 (nick :: l)).
Proof.
  intros calls s0.
  apply (recordNickname_history_invariant s0 calls).
  exact store_ok_empty.
Defined.

(** ** Audit attribution *)

Lemma find_first {A} (f : A -> bool) (l : list A) (x : A) :
  List.find f l = Some x -> first_such (fun y => f y = true) l x.
Proof.
  induction l as [|y l IH]; [done|]. cbn [List.find].
  destruct (f y) eqn:Hy.
  - intros [= ->]. exists [], l. split; [done|]. split; [done|constructor].
  - intros Hx. destruct (IH Hx) as (pre & post & -> & Hfx & Hpre).
    exists (y :: pre), post. split; [done|]. split; [done|].
    constructor; [|done]. by rewrite Hy.
Qed.

Lemma find_none {A} (f : A -> bool) (l : list A) :
  List.find f l = None -> Forall (fun y => ~ f y = true) l.
Proof.
  induction l as [|y l IH]; [constructor|]. cbn [List.find].
  destruct (f y) eqn:Hy; [done|]. intros Hn. constructor; [|by apply IH].
  by rewrite Hy.
Qed.

Lemma entry_matches_spec types targetId now a :
  entry_matches types targetId now a = true <-> spec_candidate types targetId now a.
Proof.
  unfold entry_matches, spec_candidate.
  rewrite !andb_true_iff, !bool_decide_eq_true.
  destruct (truthy targetId) as [t|].
  - rewrite bool_decide_eq_true. split.
    + intros [[? ?] ?]. split; [done|]. split; [|done]. by intros ? [= <-].
    + intros (? & Ht & ?). split; [|done]. split; [done|]. by apply Ht.
  - split.
    + intros [[? _] ?]. by split; [|split].
    + intros (? & _ & ?). by split; [split|].
Qed.

Lemma first_such_iff {A} (P Q : A -> Prop) (l : list A) (x : A) :
  (forall y, P y <-> Q y) -> first_such P l x -> first_such Q l x.
Proof.
  intros HPQ (pre & post & -> & Hx & Hpre). exists pre, post.
  split; [done|]. split; [by apply HPQ|].
  eapply Forall_impl; [exact Hpre|]. intros y Hy HQ. by apply Hy, HPQ.
Qed.

(** The window is open at its far end: an entry exactly 5000 ms old is
    not a candidate, one that is 4999 ms old is. *)
Example entry_matches_window_boundary :
  let kick := {| a_action := MemberKick; a_targetId := Some "2001";
                 a_createdTimestamp := 1700000000000;
                 a_executor := Some Sample.moderator; a_reason := None |} in
  entry_matches [MemberKick] (Some "2001") 1700000005000 kick = false
  /\ entry_matches [MemberKick] (Some "2001") 1700000004999 kick = true
  /\ entry_matches [MemberKick] (Some "2002") 1700000004999 kick = false
  /\ entry_matches [MemberBanAdd] (Some "2001") 1700000004999 kick = false.
Proof. by vm_compute. Qed.

(** The lookup on a fetch that succeeded, as a function of the entries. *)
Lemma getAuditLogExecutor_fetched guild type targetId now entries s :
  getAuditLogExecutor guild type targetId now (inr entries) s =
  {| completion :=
       Return
         match List.find (entry_matches (requested type) targetId now) entries with
         | Some a => {| executor := a_executor a;
                        reason := Some (or_else (a_reason a)
                                                "No reason provided in Audit Log.") |}
         | None => {| executor := None; reason := None |}
         end;
     final := s;
     trace := [FetchAuditLogs (g_id guild) 5 (requested type)] |}.
Proof.
  unfold getAuditLogExecutor, try_catch, bind, await, ret, requested. cbn.
  by destruct (List.find _ entries).
Qed.

(** C2. When the audit-log fetch answers with [entries], the lookup asks
    for at most 5 entries of the requested kinds and returns, for the first
    entry whose kind is requested, whose target is the given one (when one
    is given) and that is less than 5 seconds old, that entry's executor
    and its reason, the default text standing in for a missing reason; when
    no entry meets the three conditions it returns a null executor and a
    null reason.  The state is unchanged. *)
Theorem getAuditLogExecutor_first_candidate
    (guild : Guild) (type : AuditLogEvent + list AuditLogEvent)
    (targetId : option string) (now : Z) (entries : list AuditLogEntry) (s : State) :
  let o := getAuditLogExecutor guild type targetId now (inr entries) s in
  let candidate := spec_candidate (requested type) targetId now in
  trace o = [FetchAuditLogs (g_id guild) 5 (requested type)]
  /\ final o = s
  /\ ((exists a, first_such candidate entries a
               /\ completion o =
                  Return {| executor := a_executor a;
                            reason := Some (match truthy (a_reason a) with
                                            | Some r => r
                                            | None => "No reason provided in Audit Log."
                                            end) |})
      \/ (Forall (fun a => ~ candidate a) entries
          /\ completion o = Return {| executor := None; reason := None |})).
Proof.
  intros o candidate. subst o. rewrite getAuditLogExecutor_fetched. cbn.
  split; [done|]. split; [done|].
  destruct (List.find _ entries) as [a|] eqn:Hfind.
  - left. exists a. split; [|done].
    eapply first_such_iff; [|by apply find_first].
    intros y. apply entry_matches_spec.
  - right. split; [|done].
    eapply Forall_impl; [by apply find_none|].
    intros y Hy Hc. by apply Hy, entry_matches_spec.
Qed.

(** C3. When the audit-log fetch is rejected, the [catch] block of
    [getAuditLogExecutor] does not reach its [console.warn] nor its
    [return]: it reads [types], which is bound only inside the [try] block,
    and the lookup ends with a [ReferenceError].  A handler that awaits the
    lookup ends with that exception before it emits its record; shown here
    for [guildMemberRemove]. *)
Theorem getAuditLogExecutor_fetch_rejected
    (guild : Guild) (type : AuditLogEvent + list AuditLogEvent)
    (targetId : option string) (now : Z) (e : Exn) (s : State) (member : Member) :
  getAuditLogExecutor guild type targetId now (inl e) s =
    {| completion := Throw (ReferenceError "types"); final := s;
       trace := [FetchAuditLogs (g_id guild) 5 (requested type)] |}
  /\ completion (guildMemberRemove member now (inl e) s) = Throw (ReferenceError "types")
  /\ emitted (trace (guildMemberRemove member now (inl e) s)) = [].
Proof. by destruct type. Qed.

(** ** Invite tracking *)

Lemma find_append {A} (f : A -> bool) (l1 l2 : list A) :
  List.find f (l1 ++ l2) =
  match List.find f l1 with
  | Some x => Some x
  | None => List.find f l2
  end.
Proof.
  induction l1 as [|x l1 IH]; [done|]. cbn [app List.find].
  by destruct (f x).
Qed.

Lemma snapshot_lookup_acc (live : list Invite) (m : gmap string Z) (code : string) :
  fold_left (fun m i => <[i_code i := i_uses i]> m) live m !! code =
  match List.find (fun i => bool_decide (i_code i = code)) (rev live) with
  | Some i => Some (i_uses i)
  | None => m !! code
  end.
Proof.
  revert m. induction live as [|i live IH]; intros m; [done|].
  cbn [fold_left rev]. rewrite IH, find_append.
  destruct (List.find _ (rev live)); [done|]. cbn [List.find].
  case_bool_decide as Hc.
  - subst. by rewrite lookup_insert_eq.
  - by rewrite lookup_insert_ne.
Qed.

(** The snapshot maps each live code to its use count (the last one,
    should a code occur twice) and holds nothing else. *)
Lemma snapshot_lookup (live : list Invite) (code : string) :
  snapshot live !! code =
  i_uses <$> List.find (fun i => bool_decide (i_code i = code)) (rev live).
Proof.
  unfold snapshot. rewrite snapshot_lookup_acc.
  destruct (List.find _ (rev live)); [done|]. by rewrite lookup_empty.
Qed.

(** Priming a guild: with the permission and a fetch that succeeds the
    snapshot of the live list is stored; without the permission nothing is
    fetched and no snapshot is stored; a rejected fetch is logged and
    stores nothing. *)
Lemma cacheInvites_outcome (guild : Guild) (live : list Invite) (e : Exn) (s : State) :
  invites (final (cacheInvites guild true (inr live) s))
    = <[g_id guild := snapshot live]> (invites s)
  /\ (forall fetched, cacheInvites guild false fetched s = silent s)
  /\ completion (cacheInvites guild true (inl e) s) = Return tt
  /\ final (cacheInvites guild true (inl e) s) = s.
Proof. done. Qed.

(** C4. On a member join in a guild that has a cached invite snapshot, the
    handler fetches the live invites and goes through them in order: the
    join is attributed to the first invite whose live use count is strictly
    above its cached count (0 for a code the cache does not hold), and the
    record names that invite; when no invite shows an increase the record
    says that the invite could not be determined.  In both cases the cached
    snapshot of the guild becomes the snapshot of the whole live list (each
    live code with its live use count) and nothing else changes.  Without a snapshot the record says that tracking
    is disabled, no invite is fetched and the state is unchanged.  With the
    cache {A:5, B:2}, the live list {A:5, B:3} attributes the join to B and
    the live list {A:5, B:2} attributes it to no invite. *)
Theorem guildMemberAdd_attribution (member : Member) (live : list Invite)
    (fetched : Exn + list Invite) (s : State) :
  let guildId := g_id (m_guild member) in
  let increased (cachedInvites : gmap string Z) (i : Invite) :=
    default 0 (cachedInvites !! i_code i) < i_uses i in
  let created := unix_seconds (u_createdAt (m_user member)) in
  let joined (text : string) :=
    LogEvent {| r_guild := m_guild member; r_title := "🟢 Member Joined";
                r_description :=
                  (user_line (u_tag (m_user member)) (m_id member)
                   +:+ "**Account Created:** <t:" +:+ created +:+ ":f> (<t:"
                   +:+ created +:+ ":R>)") +:+ text;
                r_color := Green; r_user := Some (m_user member) |} in
  match invites s !! guildId with
  | Some cachedInvites =>
      let o := guildMemberAdd member (inr live) s in
      completion o = Return tt
      /\ invites (final o) = <[guildId := snapshot live]> (invites s)
      /\ (forall code,
            snapshot live !! code =
            i_uses <$> List.find (fun i => bool_decide (i_code i = code)) (rev live))
      /\ guildConfig (final o) = guildConfig s
      /\ nicknameHistory (final o) = nicknameHistory s
      /\ disk (final o) = disk s
      /\ ((exists used,
             first_such (increased cachedInvites) live used
             /\ trace o =
                [FetchInvites guildId;
                 joined (nl +:+ nl +:+ "**Invite Used:** `" +:+ i_code used +:+ "`" +:+ nl
                         +:+ "**Created By:** "
                         +:+ match i_inviter used with
                             | Some u => u_tag u
                             | None => "System/Unknown"
                             end +:+ nl
                         +:+ "**Uses:** " +:+ pretty (i_uses used))])
          \/ (Forall (fun i => ~ increased cachedInvites i) live
              /\ trace o =
                 [FetchInvites guildId;
                  joined (nl +:+ nl +:+ "**Invite Used:** Could not determine invite link.")]))
  | None =>
      guildMemberAdd member fetched s =
      {| completion := Return tt; final := s;
         trace := [joined (nl +:+ nl +:+ "⚠️ Invite tracking disabled.")] |}
  end
  /\ usedInvite Sample.cached [Sample.inviteA; Sample.inviteB 3] = Some (Sample.inviteB 3)
  /\ usedInvite Sample.cached [Sample.inviteA; Sample.inviteB 2] = None.
Proof.
  intros guildId increased created joined.
  split; [|split; by vm_compute].
  unfold guildMemberAdd. fold guildId. fold created.
  destruct (invites s !! guildId) as [cachedInvites|] eqn:Hc;
    rewrite bind_get, Hc; [|by rewrite bind_ret].
  unfold invite_text, bind, await. cbn [completion final trace].
  destruct (usedInvite cachedInvites live) as [used|] eqn:Hused;
    unfold modify, ret, emit;
    cbn [completion final trace set_invites invites guildConfig
         nicknameHistory disk app].
  - rewrite insert_insert_eq.
    split; [done|]. split; [done|]. split; [apply snapshot_lookup|].
    repeat (split; [done|]).
    left. exists used. split; [|done].
    apply find_first in Hused.
    eapply first_such_iff; [|exact Hused].
    intros i. cbn. apply bool_decide_eq_true.
  - split; [done|]. split; [done|]. split; [apply snapshot_lookup|].
    repeat (split; [done|]).
    right. split; [|done].
    eapply Forall_impl; [by apply find_none|].
    intros i Hi Hinc. apply Hi. cbn. by apply bool_decide_eq_true.
Qed.

(** ** Message deletion *)

(** [reason || 'No reason provided.'] after the lookup has already put its
    own default in place of a missing reason. *)
Lemma or_else_or_else (v : option string) (d1 d2 : string) :
  d1 <> "" -> or_else (Some (or_else v d1)) d2 = or_else v d1.
Proof.
  intros Hd. unfold or_else at 1. unfold truthy at 1.
  case_bool_decide as He; [|done].
  exfalso. revert He. unfold or_else.
  destruct (truthy v) as [x|] eqn:Hv; [|done].
  by apply truthy_Some in Hv as [_ ?].
Qed.

(** C5 as the specification words it fails on a message written by
    another bot: no bulk-delete entry is in the window, and no record is
    emitted. *)
Lemma messageDelete_other_bot_counterexample :
  ~ (forall (message : Message) (guild : Guild) (clientUserId : string) (now : Z)
            (entries : list AuditLogEntry) (s : State),
       msg_guild message = Some guild ->
       let o := messageDelete message clientUserId now (inr entries) s in
       match List.find (entry_matches [MessageBulkDelete]
                                      (Some (msg_channelId message)) now) entries with
       | Some _ => emitted (trace o) = []
       | None => exists r, emitted (trace o) = [r]
       end).
Proof.
  intros H.
  specialize (H {| msg_guild := Some Sample.guild; msg_author := Some Sample.otherbot;
                   msg_channelId := "3002"; msg_content := Some "now playing";
                   msg_attachments := [] |}
                Sample.guild Sample.watchdog_id 1700000000000 [] Sample.configured eq_refl).
  destruct H as [r Hr]. vm_compute in Hr. discriminate Hr.
Qed.

(** C5, amended.  For a message-delete event in a guild: when the author is
    a bot other than this bot, nothing is looked up and nothing is emitted;
    otherwise one audit lookup for bulk deletes on the message's channel is
    made and, when its fetch succeeds, no record is emitted if the lookup
    returns an executor (the first bulk-delete entry for that channel less
    than 5 seconds old has one), and exactly one message-deleted record is
    emitted in every other case.  The state is unchanged. *)
Theorem messageDelete_suppression (message : Message) (clientUserId : string)
    (now : Z) (entries : list AuditLogEntry) (s : State) :
  let o := messageDelete message clientUserId now (inr entries) s in
  completion o = Return tt /\ final o = s
  /\ match msg_guild message with
     | None => trace o = []
     | Some guild =>
         if other_bot (msg_author message) clientUserId then trace o = []
         else
           lookups (trace o) = [FetchAuditLogs (g_id guild) 5 [MessageBulkDelete]]
           /\ match List.find (entry_matches [MessageBulkDelete]
                                             (Some (msg_channelId message)) now) entries
                    ≫= a_executor with
              | Some _ => emitted (trace o) = []
              | None =>
                  exists description,
                    emitted (trace o) =
                    [{| r_guild := guild; r_title := "🗑️ Message Deleted";
                        r_description := description; r_color := Red;
                        r_user := msg_author message |}]
              end
     end.
Proof.
  intros o. subst o. unfold messageDelete.
  destruct (msg_guild message) as [guild|]; [|done].
  destruct (other_bot _ _); [done|].
  unfold bind. rewrite !getAuditLogExecutor_fetched.
  cbn [completion final trace requested].
  destruct (List.find _ entries) as [a|]; cbn [executor mbind option_bind].
  - destruct (a_executor a); run_handler; read_trace; [done|].
    repeat (split; [done|]). eauto.
  - run_handler. read_trace. repeat (split; [done|]). eauto.
Qed.

(** ** Member leave *)

(** C6 as the specification words it fails on a kick entry that names no
    executor: the entry is for the member and in the window, and the record
    is a plain leave. *)
Lemma guildMemberRemove_no_executor_counterexample :
  ~ (forall (member : Member) (now : Z) (entries : list AuditLogEntry) (s : State),
       let o := guildMemberRemove member now (inr entries) s in
       match List.find (entry_matches [MemberKick] (Some (m_id member)) now) entries with
       | Some _ =>
           exists r, emitted (trace o) = [r]
                     /\ r_title r = "🔨 Member Kicked" /\ r_color r = Orange
       | None =>
           exists r, emitted (trace o) = [r]
                     /\ r_title r = "🔴 Member Left/Quit" /\ r_color r = Red
       end).
Proof.
  intros H.
  specialize (H (Sample.member None) 1700000002000
                [{| a_action := MemberKick; a_targetId := Some "2001";
                    a_createdTimestamp := 1700000000000;
                    a_executor := None; a_reason := Some "spam" |}]
                Sample.configured).
  vm_compute in H. destruct H as (r & [= <-] & _ & Hcolor). discriminate Hcolor.
Qed.

(** C6, amended.  For a member-leave event whose audit-log fetch succeeds,
    exactly one record is emitted after one lookup for kicks of that member.
    When the lookup returns an executor (the first kick entry for the member
    less than 5 seconds old has one) the record is titled "Member Kicked",
    is orange and carries the moderator and the reason (the default text when
    the entry has none); when it returns none (no such entry in the window,
    or one without an executor) the record is titled "Member Left/Quit" and
    is red.  The state is unchanged. *)
Theorem guildMemberRemove_kick_or_leave (member : Member) (now : Z)
    (entries : list AuditLogEntry) (s : State) :
  let o := guildMemberRemove member now (inr entries) s in
  let description :=
    user_line (u_tag (m_user member)) (m_id member)
    +:+ match m_joinedAt member with
        | Some t => "**Joined:** <t:" +:+ unix_seconds t +:+ ":f>" +:+ nl
        | None => "**Joined:** Time unknown" +:+ nl
        end in
  let found := List.find (entry_matches [MemberKick] (Some (m_id member)) now) entries in
  completion o = Return tt /\ final o = s
  /\ lookups (trace o) = [FetchAuditLogs (g_id (m_guild member)) 5 [MemberKick]]
  /\ emitted (trace o) =
     [match found with
      | Some {| a_executor := Some moderator; a_reason := why |} =>
          {| r_guild := m_guild member; r_title := "🔨 Member Kicked";
             r_description :=
               description +:+ nl +:+ "**Responsible Mod:** " +:+ tag_id moderator
               +:+ nl +:+ "**Reason:** "
               +:+ match truthy why with
                   | Some text => text
                   | None => "No reason provided in Audit Log."
                   end;
             r_color := Orange; r_user := Some (m_user member) |}
      | _ =>
          {| r_guild := m_guild member; r_title := "🔴 Member Left/Quit";
             r_description := description; r_color := Red;
             r_user := Some (m_user member) |}
      end].
Proof.
  intros o description found. subst o found. unfold guildMemberRemove.
  fold description. unfold bind. rewrite !getAuditLogExecutor_fetched.
  cbn [completion final trace requested].
  destruct (List.find _ entries) as [[action target ts [moderator|] why]|];
    cbn [executor reason a_executor a_reason];
    run_handler; read_trace; repeat (split; [done|]); [|done..].
  by rewrite or_else_or_else.
Qed.

(** ** Updates without a tracked change *)

(** A comparison [x !== x] is false. *)
Ltac same_fields :=
  repeat (rewrite (bool_decide_eq_false_2 (_ <> _)) by (intros Hne; by apply Hne));
  repeat (rewrite (bool_decide_eq_true_2 (_ = _)) by reflexivity);
  repeat (rewrite (bool_decide_eq_false_2 (_ < _)%nat) by lia);
  cbn [push_if negb].

Lemma channel_changes_same (old new : Channel) :
  same_tracked_channel old new -> channel_changes old new = [].
Proof.
  intros (Hname & Htopic & Hrate & Hperms). unfold channel_changes.
  rewrite Hname, Htopic, Hrate, Hperms. same_fields.
  assert (Hnone : filter (fun entry => override_changed (ch_permissionOverwrites new) entry = true)
                         (ch_permissionOverwrites new) = ∅).
  { apply map_empty_filter. intros id ow Hid. unfold override_changed. cbn [fst snd].
    rewrite Hid. by same_fields. }
  rewrite Hnone, map_size_empty. by same_fields.
Qed.

Lemma role_changes_same (old new : Role) :
  same_tracked_role old new -> role_changes old new = [].
Proof.
  intros (Hname & Hcolor & Hperms). unfold role_changes.
  rewrite Hname, Hcolor, Hperms. by same_fields.
Qed.

Lemma guild_changes_same (old new : GuildSettings) :
  same_tracked_guild old new -> guild_changes old new = [].
Proof.
  intros (Hname & Hicon & Hlevel & Hsys). unfold guild_changes.
  rewrite Hname, Hicon, Hlevel, Hsys. by same_fields.
Qed.

(** C7. A channel update, a role update or a guild update whose two
    snapshots agree on every tracked field (channel: name, topic, rate
    limit, permission overwrites; role: name, colour, permissions; guild:
    name, icon, verification level, system channel) returns at once: no
    record is emitted, no audit lookup is made, the state is unchanged,
    whatever the platform would have answered. *)
Theorem update_without_change_is_silent :
  (forall (old new : Channel) (now : Z) (fetched : Exn + list AuditLogEntry) (s : State),
     same_tracked_channel old new -> channelUpdate old new now fetched s = silent s)
  /\ (forall (guild : Guild) (old new : Role) (now : Z)
             (fetched : Exn + list AuditLogEntry) (s : State),
        same_tracked_role old new -> roleUpdate guild old new now fetched s = silent s)
  /\ (forall (old new : GuildSettings) (now : Z)
             (fetched : Exn + list AuditLogEntry) (s : State),
        same_tracked_guild old new -> guildUpdate old new now fetched s = silent s).
Proof.
  split; [|split].
  - intros old new now fetched s Hsame. unfold channelUpdate.
    destruct (ch_guild new); [|done].
    destruct (ch_partial old || ch_partial new); [done|].
    by rewrite channel_changes_same.
  - intros guild old new now fetched s Hsame. unfold roleUpdate.
    by rewrite role_changes_same.
  - intros old new now fetched s Hsame. unfold guildUpdate.
    by rewrite guild_changes_same.
Qed.

(** Identical snapshots, with a platform that would reject the lookup. *)
Lemma update_without_change_is_silent_witness :
  let role := {| role_id := "4001"; role_name := "Keeper"; role_color := 3447003;
                 role_permissions := 8 |} in
  let settings := {| gs_guild := Sample.guild; gs_iconURL := None;
                     gs_verificationLevel := 2; gs_systemChannelId := Some "3001";
                     gs_systemChannel := Some "3001" |} in
  let rejected := inl (DiscordAPIError 50013 "Missing Permissions") in
  channelUpdate Sample.log_channel Sample.log_channel 0 rejected Sample.configured
    = silent Sample.configured
  /\ roleUpdate Sample.guild role role 0 rejected Sample.configured
     = silent Sample.configured
  /\ guildUpdate settings settings 0 rejected Sample.configured
     = silent Sample.configured.
Proof.
  intros role settings rejected.
  destruct update_without_change_is_silent as (Hchannel & Hrole & Hguild).
  split; [|split].
  - apply Hchannel. by repeat split.
  - apply Hrole. by repeat split.
  - apply Hguild. by repeat split.
Defined.

(** ** Log delivery *)

Lemma truthy_nonempty (x : string) : x <> "" -> truthy (Some x) = Some x.
Proof. intros Hx. unfold truthy. by rewrite bool_decide_eq_false_2. Qed.

(** What a restarted process reads back from files that [saveConfig]
    wrote. *)
Lemma reload_saved (c : gmap string string) (h : gmap string (gmap string (list string))) :
  guildConfig (reload {| config_json := Holds c; history_json := Holds h |}) = c
  /\ nicknameHistory (reload {| config_json := Holds c; history_json := Holds h |}) = h.
Proof. done. Qed.

(** The outcome of a delivery that fails with [e]. *)
Lemma logEvent_failed (record : LogRecord) (fetched : Exn + option Channel)
    (sent : Exn + unit) (s : State) (channelId : string) (e : Exn) :
  guildConfig s !! g_id (r_guild record) = Some channelId ->
  channelId <> "" ->
  delivery_error fetched sent = Some e ->
  let o := logEvent record fetched sent s in
  completion o = Return tt
  /\ final o =
     if bool_decide (destination_unreachable e) then
       let kept := delete (g_id (r_guild record)) (guildConfig s) in
       {| guildConfig := kept; nicknameHistory := nicknameHistory s;
          invites := invites s;
          disk := {| config_json := Holds kept;
                     history_json := Holds (nicknameHistory s) |} |}
     else s.
Proof.
  intros Hcfg Hne Herr o. subst o. unfold logEvent.
  rewrite bind_get, Hcfg, truthy_nonempty by done.
  unfold delivery_error in Herr. unfold destination_unreachable.
  destruct fetched as [e'|[ch|]]; [| |done].
  - injection Herr as ->. run_handler.
    destruct (bool_decide _); by run_handler.
  - run_handler. destruct (bool_decide (ch_type ch ≠ 0)); [done|].
    destruct sent as [e'|[]]; [|done]. injection Herr as ->. run_handler.
    destruct (bool_decide _); by run_handler.
Qed.

(** C8. For a guild with a configured log destination, a delivery that
    fails with Unknown Channel (10003) or Missing Access (50001), be it at
    the channel fetch or at the send, removes the guild's entry from the
    configuration in memory and writes the configuration file without it, so
    that a restarted process loads a configuration without the entry; a
    delivery that fails with any other error leaves the whole state, memory
    and files, as it was.  The failure never leaves [logEvent]. *)
Theorem logEvent_evicts_unreachable_destination (record : LogRecord)
    (fetched : Exn + option Channel) (sent : Exn + unit) (s : State)
    (channelId : string) (e : Exn) :
  guildConfig s !! g_id (r_guild record) = Some channelId ->
  channelId <> "" ->
  delivery_error fetched sent = Some e ->
  let G := g_id (r_guild record) in
  let o := logEvent record fetched sent s in
  completion o = Return tt
  /\ (destination_unreachable e ->
        guildConfig (final o) = delete G (guildConfig s)
        /\ guildConfig (final o) !! G = None
        /\ config_json (disk (final o)) = Holds (delete G (guildConfig s))
        /\ guildConfig (reload (disk (final o))) = delete G (guildConfig s)
        /\ guildConfig (reload (disk (final o))) !! G = None)
  /\ (~ destination_unreachable e -> final o = s).
Proof.
  intros Hcfg Hne Herr G o. subst G.
  destruct (logEvent_failed record fetched sent s channelId e Hcfg Hne Herr)
    as [Hdone Hfinal].
  fold o in Hdone, Hfinal. split; [done|]. split.
  - intros Hun. rewrite Hfinal, bool_decide_eq_true_2 by done.
    cbv zeta. cbn [guildConfig disk config_json].
    pose proof (reload_saved (delete (g_id (r_guild record)) (guildConfig s))
                             (nicknameHistory s)) as [Hre _].
    rewrite lookup_delete_eq. repeat split; try done.
    by rewrite Hre, lookup_delete_eq.
  - intros Hun. by rewrite Hfinal, bool_decide_eq_false_2.
Qed.

(** The log channel of the sample guild was deleted. *)
Lemma logEvent_evicts_unreachable_destination_witness :
  let fetched := inl (DiscordAPIError 10003 "Unknown Channel") in
  let o := logEvent Sample.record fetched (inr tt) Sample.configured in
  completion o = Return tt
  /\ (destination_unreachable (DiscordAPIError 10003 "Unknown Channel") ->
        guildConfig (final o) = delete "1001" (guildConfig Sample.configured)
        /\ guildConfig (final o) !! "1001" = None
        /\ config_json (disk (final o)) = Holds (delete "1001" (guildConfig Sample.configured))
        /\ guildConfig (reload (disk (final o))) = delete "1001" (guildConfig Sample.configured)
        /\ guildConfig (reload (disk (final o))) !! "1001" = None)
  /\ (~ destination_unreachable (DiscordAPIError 10003 "Unknown Channel") ->
      final o = Sample.configured).
Proof.
  intros fetched o.
  apply (logEvent_evicts_unreachable_destination Sample.record fetched (inr tt)
           Sample.configured "3001" (DiscordAPIError 10003 "Unknown Channel")).
  - vm_compute. reflexivity.
  - discriminate.
  - reflexivity.
Defined.

(** C10. For a guild without an entry in the configuration, [logEvent]
    returns at once: no channel is fetched, nothing is sent, and the state
    (configuration, nickname history, invite snapshots, files) is what it
    was, whatever the platform would have answered. *)
Theorem logEvent_unconfigured_is_silent (record : LogRecord)
    (fetched : Exn + option Channel) (sent : Exn + unit) (s : State) :
  guildConfig s !! g_id (r_guild record) = None ->
  logEvent record fetched sent s = silent s.
Proof.
  intros Hcfg. unfold logEvent. by rewrite bind_get, Hcfg.
Qed.

(** The sample guild before any [setlog]. *)
Lemma logEvent_unconfigured_is_silent_witness :
  logEvent Sample.record (inr (Some Sample.log_channel)) (inr tt) Sample.tracking
  = silent Sample.tracking.
Proof.
  apply (logEvent_unconfigured_is_silent Sample.record (inr (Some Sample.log_channel))
           (inr tt) Sample.tracking).
  vm_compute. reflexivity.
Defined.

(** ** Nickname change *)

(** C9. A member who was nicknamed "Rex", then "Fido", takes "Rex" again.
    The handler records "Rex", which is already in the history, so the
    stored list stays ["Fido"; "Rex"]; the rendered past nicknames are that
    list without its first entry: "Rex", the nickname just taken, is shown
    as a past nickname, and "Fido", the nickname just left, is dropped. *)
Theorem guildMemberUpdate_reused_nickname :
  let before := run_calls [Sample.nick "Rex"; Sample.nick "Fido"]
                          (initial_state Sample.empty_disk) in
  let o := guildMemberUpdate (Sample.member (Some "Fido")) (Sample.member (Some "Rex"))
                             1700000000000 (inr []) before in
  history_of (nicknameHistory before) "1001" "2001" = ["Fido"; "Rex"]
  /\ history_of (nicknameHistory (final o)) "1001" "2001" = ["Fido"; "Rex"]
  /\ getNicknameHistory (final o) "1001" "2001" = "Rex"
  /\ emitted (trace o) =
     [{| r_guild := Sample.guild; r_title := "📝 Nickname Changed (History Recorded)";
         r_description := "**Old Nick:** Fido" +:+ nl +:+ "**New Nick:** Rex" +:+ nl +:+ nl
                          +:+ "**Past Nicknames:** Rex";
         r_color := Blue; r_user := Some Sample.alice |}].
Proof. by vm_compute. Qed.

(** * Further properties *)

(** ** The Config Store on disk *)

(** X1. What [saveConfig] writes is what a restarted process reads back:
    the log-channel configuration and the nickname history survive a
    restart; the invite snapshots, which are never written, do not. *)
Theorem saveConfig_reload_roundtrip (s : State) :
  let restarted := reload (disk (final (saveConfig s))) in
  guildConfig restarted = guildConfig s
  /\ nicknameHistory restarted = nicknameHistory s
  /\ invites restarted = ∅
  /\ completion (saveConfig s) = Return tt.
Proof. done. Qed.

(** X2. Loading and saving again without a mutation in between rewrites
    the files as they were when both hold a value; when the files do not
    exist yet the first save creates them with empty objects. *)
Theorem reload_saveConfig_idempotent
    (c : gmap string string) (h : gmap string (gmap string (list string))) :
  let d := {| config_json := Holds c; history_json := Holds h |} in
  disk (final (saveConfig (reload d))) = d
  /\ disk (final (saveConfig (reload {| config_json := Absent; history_json := Absent |})))
     = {| config_json := Holds ∅; history_json := Holds ∅ |}
  /\ disk (final (saveConfig (reload {| config_json := Holds c; history_json := Absent |})))
     = {| config_json := Holds c; history_json := Holds ∅ |}.
Proof. done. Qed.

(** The state with which a call of [recordNickname] that has something to
    record ends. *)
Lemma recordNickname_final (g : Guild) (u nick : string) (s : State) :
  nick <> "" ->
  let h2 := ensure_user (g_id g) u (ensure_guild (g_id g) (nicknameHistory s)) in
  let hist := history_of h2 (g_id g) u in
  final (recordNickname (Some g) (Some u) (Some nick) s) =
  if bool_decide (nick ∈ hist) then set_nicknameHistory h2 s
  else
    let h3 := store_history (g_id g) u (take 20 (nick :: hist)) h2 in
    {| guildConfig := guildConfig s; nicknameHistory := h3; invites := invites s;
       disk := {| config_json := Holds (guildConfig s); history_json := Holds h3 |} |}.
Proof.
  intros Hne h2 hist. unfold recordNickname. rewrite truthy_nonempty by done.
  run_handler. cbn [set_nicknameHistory nicknameHistory].
  fold h2. fold hist. by destruct (bool_decide (nick ∈ hist)).
Qed.

(** X3. One unreadable file costs both caches: when the nickname history
    file does not parse, the process starts with an empty log-channel
    configuration although the configuration file is intact (and the other
    way round), and logs the error.  The next nickname it records then
    rewrites the configuration file as an empty object. *)
Theorem loadConfig_garbled_file_resets_both
    (c : gmap string string) (h : gmap string (gmap string (list string)))
    (msg : string) (g : Guild) (u nick : string) :
  nick <> "" ->
  let broken_history := {| config_json := Holds c; history_json := Garbled msg |} in
  let broken_config := {| config_json := Garbled msg; history_json := Holds h |} in
  guildConfig (reload broken_history) = ∅
  /\ nicknameHistory (reload broken_history) = ∅
  /\ guildConfig (reload broken_config) = ∅
  /\ nicknameHistory (reload broken_config) = ∅
  /\ completion (loadConfig (initial_state broken_history)) = Return tt
  /\ last (trace (loadConfig (initial_state broken_history)))
     = Some (ConsoleError ("❌ Error loading config files: " +:+ msg))
  /\ config_json (disk (final (recordNickname (Some g) (Some u) (Some nick)
                                              (reload broken_history))))
     = Holds ∅.
Proof.
  intros Hne broken_history broken_config.
  repeat (split; [done|]).
  rewrite recordNickname_final by done.
  rewrite history_of_ensure_user, history_of_ensure_guild.
  assert (Hempty : history_of (nicknameHistory (reload broken_history)) (g_id g) u = []).
  { change (nicknameHistory (reload broken_history)) with
      (∅ : gmap string (gmap string (list string))).
    unfold history_of. by rewrite lookup_empty. }
  rewrite Hempty.
  by rewrite bool_decide_eq_false_2 by (by intros ?%elem_of_nil).
Qed.

(** A parse error in the history file of the sample guild. *)
Lemma loadConfig_garbled_file_resets_both_witness :
  let broken_history :=
    {| config_json := Holds {[ "1001" := "3001" ]};
       history_json := Garbled "Unexpected end of JSON input" |} in
  guildConfig (reload broken_history) = ∅
  /\ config_json (disk (final (recordNickname (Some Sample.guild) (Some "2001") (Some "Rex")
                                              (reload broken_history))))
     = Holds ∅.
Proof.
  intros broken_history.
  destruct (loadConfig_garbled_file_resets_both
              {[ "1001" := "3001" ]} ∅ "Unexpected end of JSON input"
              Sample.guild "2001" "Rex") as (H1 & _ & _ & _ & _ & _ & H7).
  - discriminate.
  - exact (conj H1 H7).
Defined.

(** ** More on the nickname history *)

Lemma ensure_guild_present (h : gmap string (gmap string (list string))) (g : string) :
  is_Some (h !! g) -> ensure_guild g h = h.
Proof. intros [users Hg]. unfold ensure_guild. by rewrite Hg. Qed.

Lemma ensure_user_present (h : gmap string (gmap string (list string)))
    (g u : string) (users : gmap string (list string)) :
  h !! g = Some users -> is_Some (users !! u) -> ensure_user g u h = h.
Proof. intros Hg [l Hu]. unfold ensure_user. by rewrite Hg, Hu. Qed.

(** A nickname can only be found in a list that the store already held:
    then the two [ensure] steps changed nothing. *)
Lemma ensure_unchanged_when_present (h : gmap string (gmap string (list string)))
    (g u nick : string) :
  nick ∈ history_of (ensure_user g u (ensure_guild g h)) g u ->
  ensure_user g u (ensure_guild g h) = h.
Proof.
  rewrite history_of_ensure_user, history_of_ensure_guild.
  unfold history_of. destruct (h !! g) as [users|] eqn:Hg; [|by intros ?%elem_of_nil].
  destruct (users !! u) as [l|] eqn:Hu; [|by intros ?%elem_of_nil].
  intros _. rewrite ensure_guild_present by eauto.
  eapply ensure_user_present; eauto.
Qed.

Lemma store_history_lookup (h : gmap string (gmap string (list string)))
    (g u : string) (l : list string) :
  is_Some (h !! g) ->
  exists users, store_history g u l h !! g = Some users /\ users !! u = Some l.
Proof.
  intros [users Hg]. unfold store_history. rewrite Hg.
  exists (<[u := l]> users). by rewrite !lookup_insert_eq.
Qed.

(** X4. Recording is idempotent: a second call of [recordNickname] with
    the same arguments changes nothing, in memory or on disk. *)
Theorem recordNickname_idempotent (s : State) (c : NickCall) :
  run_call (run_call s c) c = run_call s c.
Proof.
  unfold run_call.
  destruct (c_guild c) as [g|]; [|done].
  destruct (c_member c) as [u|]; [|done].
  destruct (truthy (c_nickname c)) as [nick|] eqn:Ht;
    [|by unfold recordNickname; rewrite Ht].
  apply truthy_Some in Ht as [Hc Hne]. rewrite Hc.
  set (s1 := final (recordNickname (Some g) (Some u) (Some nick) s)).
  assert (Hin : nick ∈ history_of (nicknameHistory s1) (g_id g) u
                /\ exists users, nicknameHistory s1 !! g_id g = Some users
                                 /\ is_Some (users !! u)).
  { subst s1. rewrite recordNickname_final by done.
    set (h2 := ensure_user (g_id g) u (ensure_guild (g_id g) (nicknameHistory s))).
    assert (Hsome : is_Some (h2 !! g_id g))
      by apply ensure_user_is_Some, ensure_guild_is_Some.
    case_bool_decide as Hold; cbn [nicknameHistory set_nicknameHistory].
    - split; [done|].
      pose proof Hold as Hh. apply ensure_unchanged_when_present in Hh.
      unfold history_of in Hold.
      destruct (h2 !! g_id g) as [users|]; [|by apply elem_of_nil in Hold].
      exists users. split; [done|].
      destruct (users !! u); [eauto|by apply elem_of_nil in Hold].
    - rewrite history_of_store_history, bool_decide_eq_true_2 by done.
      split; [cbn; apply elem_of_cons; by left|].
      destruct (store_history_lookup h2 (g_id g) u
                  (take 20 (nick :: history_of h2 (g_id g) u)) Hsome)
        as (users & Hg & Hu).
      exists users. split; [done|]. by rewrite Hu. }
  destruct Hin as (Hin & users & Hg & Hu).
  rewrite recordNickname_final by done.
  rewrite ensure_guild_present by (rewrite Hg; eauto).
  rewrite (ensure_user_present _ _ _ users) by done.
  rewrite bool_decide_eq_true_2 by done.
  by destruct s1.
Qed.

(** X5. History only ages out by truncation.  For a stored list of at
    most 20 entries, a call of [recordNickname] never shortens it, and an
    entry of the new list is either an entry of the old list or the
    nickname that the call recorded for that guild and user. *)
Theorem recordNickname_history_grows (s : State) (c : NickCall) (g u : string) :
  (length (history_of (nicknameHistory s) g u) <= 20)%nat ->
  (length (history_of (nicknameHistory s) g u)
   <= length (history_of (nicknameHistory (run_call s c)) g u))%nat
  /\ (forall x, x ∈ history_of (nicknameHistory (run_call s c)) g u ->
                x ∈ history_of (nicknameHistory s) g u \/ call_target c g u = Some x).
Proof.
  intros Hlen. rewrite run_call_history.
  destruct (call_target c g u) as [nick|]; [|by split; [|left]].
  unfold prepend_unique. case_bool_decide; [by split; [|left]|]. split.
  - rewrite length_take. cbn [length]. lia.
  - intros x Hx. eapply elem_of_sublist in Hx; [|apply sublist_take].
    apply elem_of_cons in Hx as [->|Hx]; [by right|by left].
Qed.

(** Three names, the second call for another user. *)
Lemma recordNickname_history_grows_witness :
  let s := run_calls [Sample.nick "Rex"; Sample.nick "Fido"]
                     (initial_state Sample.empty_disk) in
  let c := Sample.nick "Bello" in
  (length (history_of (nicknameHistory s) "1001" "2001")
   <= length (history_of (nicknameHistory (run_call s c)) "1001" "2001"))%nat
  /\ (forall x, x ∈ history_of (nicknameHistory (run_call s c)) "1001" "2001" ->
                x ∈ history_of (nicknameHistory s) "1001" "2001"
                \/ call_target c "1001" "2001" = Some x).
Proof.
  intros s c.
  apply (recordNickname_history_grows s c "1001" "2001").
  vm_compute. lia.
Defined.

(** X6. After a nickname that was not yet in the history is recorded, the
    rendered past nicknames are the history as it was before, cut to its
    first 19 entries; for a member without history the rendering is the
    empty text, not "None recorded.". *)
Theorem getNicknameHistory_after_new_nickname (g : Guild) (u nick : string) (s : State) :
  nick <> "" ->
  nick ∉ history_of (nicknameHistory s) (g_id g) u ->
  getNicknameHistory (final (recordNickname (Some g) (Some u) (Some nick) s)) (g_id g) u
  = join ", " (take 19 (history_of (nicknameHistory s) (g_id g) u)).
Proof.
  intros Hne Hnew.
  pose proof (run_call_history s {| c_guild := Some g; c_member := Some u;
                                    c_nickname := Some nick |} (g_id g) u) as Hstep.
  unfold run_call, call_target in Hstep. cbn [c_guild c_member c_nickname] in Hstep.
  rewrite truthy_nonempty in Hstep by done.
  rewrite (bool_decide_eq_true_2 (_ /\ _)) in Hstep by (by split).
  unfold getNicknameHistory. rewrite Hstep. unfold prepend_unique.
  rewrite (bool_decide_eq_false_2 (_ ∈ _)) by done. cbn [take length].
  by rewrite bool_decide_eq_false_2 by done.
Qed.

(** The first nickname of a member of the sample guild. *)
Lemma getNicknameHistory_after_new_nickname_witness :
  getNicknameHistory
    (final (recordNickname (Some Sample.guild) (Some "2001") (Some "Rex")
                           (initial_state Sample.empty_disk))) "1001" "2001"
  = join ", " (take 19 (history_of (nicknameHistory (initial_state Sample.empty_disk))
                                   "1001" "2001")).
Proof.
  apply (getNicknameHistory_after_new_nickname Sample.guild "2001" "Rex"
           (initial_state Sample.empty_disk)).
  - discriminate.
  - vm_compute. by intros ?%elem_of_nil.
Defined.

(** ** Memory and files *)

Lemma set_nicknameHistory_same (s : State) : set_nicknameHistory (nicknameHistory s) s = s.
Proof. by destruct s. Qed.

(** Every outcome of [logEvent], by the answer of the platform. *)
Lemma logEvent_outcome (record : LogRecord) (fetched : Exn + option Channel)
    (sent : Exn + unit) (s : State) :
  let o := logEvent record fetched sent s in
  let G := g_id (r_guild record) in
  completion o = Return tt
  /\ (final o = s
      \/ (exists channelId e,
            truthy (guildConfig s !! G) = Some channelId
            /\ delivery_error fetched sent = Some e
            /\ destination_unreachable e
            /\ final o =
               {| guildConfig := delete G (guildConfig s);
                  nicknameHistory := nicknameHistory s; invites := invites s;
                  disk := {| config_json := Holds (delete G (guildConfig s));
                             history_json := Holds (nicknameHistory s) |} |})).
Proof.
  intros o G. subst o G. unfold logEvent. rewrite bind_get.
  destruct (truthy (guildConfig s !! g_id (r_guild record))) as [channelId|] eqn:Hcfg;
    [|by split; [|left]].
  unfold delivery_error, destination_unreachable.
  destruct fetched as [e|[ch|]]; run_handler.
  - destruct (bool_decide _) eqn:Hb; run_handler; (split; [done|]); [|by left].
    right. exists channelId, e. by apply bool_decide_eq_true in Hb.
  - destruct (bool_decide (ch_type ch ≠ 0)); [by split; [|left]|].
    destruct sent as [e|[]]; run_handler; [|by split; [|left]].
    destruct (bool_decide _) eqn:Hb; run_handler; (split; [done|]); [|by left].
    right. exists channelId, e. by apply bool_decide_eq_true in Hb.
  - by split; [|left].
Qed.

(** X7. Every mutation of the caches is followed by a save: a call of
    [recordNickname], of [logEvent] or of the [setlog] command either
    leaves the whole state as it was or ends with files that hold exactly
    what the two caches hold. *)
Theorem mutations_are_saved :
  (forall (guild : option Guild) (member nickname : option string) (s : State),
     let s' := final (recordNickname guild member nickname s) in
     s' = s \/ in_sync s')
  /\ (forall (record : LogRecord) (fetched : Exn + option Channel) (sent : Exn + unit)
             (s : State),
        let s' := final (logEvent record fetched sent s) in
        s' = s \/ in_sync s')
  /\ (forall (message : CommandMessage) (args : list string) (answered : Exn + unit)
             (s : State),
        let s' := final (setlog message args answered s).2 in
        s' = s \/ in_sync s').
Proof.
  split; [|split].
  - intros [g|] [u|] nickname s s'; subst s'; try by left.
    destruct (truthy nickname) as [nick|] eqn:Ht;
      [|left; by unfold recordNickname; rewrite Ht].
    apply truthy_Some in Ht as [-> Hne].
    rewrite recordNickname_final by done.
    case_bool_decide as Hin; [left|by right].
    apply ensure_unchanged_when_present in Hin. rewrite Hin.
    apply set_nicknameHistory_same.
  - intros record fetched sent s s'. subst s'.
    destruct (logEvent_outcome record fetched sent s)
      as [_ [Hsame|(channelId & e & _ & _ & _ & Hfinal)]]; [by left|].
    right. by rewrite Hfinal.
  - intros message args answered s s'. subst s'. unfold setlog.
    destruct (setlog_target message args); [by left|by right].
Qed.

(** ** More on audit attribution *)

Lemma or_else_nonempty (v : option string) (fallback : string) :
  fallback <> "" -> or_else v fallback <> "".
Proof.
  intros Hf. unfold or_else. destruct (truthy v) as [x|] eqn:Hv; [|done].
  by apply truthy_Some in Hv as [_ ?].
Qed.

(** X8. A lookup whose fetch succeeds never returns an executor without a
    reason, and never an empty reason: the reason is null exactly when no
    entry was selected (and then so is the executor), and otherwise it is
    a non-empty text.  The fallbacks [reason || '...'] of the handlers that
    found an executor are therefore never taken. *)
Theorem getAuditLogExecutor_reason_present
    (guild : Guild) (type : AuditLogEvent + list AuditLogEvent)
    (targetId : option string) (now : Z) (entries : list AuditLogEntry) (s : State) :
  exists att,
    completion (getAuditLogExecutor guild type targetId now (inr entries) s) = Return att
    /\ match reason att with
       | Some text =>
           text <> ""
           /\ is_Some (List.find (entry_matches (requested type) targetId now) entries)
       | None =>
           executor att = None
           /\ List.find (entry_matches (requested type) targetId now) entries = None
       end.
Proof.
  rewrite getAuditLogExecutor_fetched. cbn [completion].
  destruct (List.find _ entries) as [a|]; eexists; (split; [done|]); cbn [reason executor].
  - split; [|eauto]. by apply or_else_nonempty.
  - done.
Qed.

(** X9. The reason of a ban record.  When the lookup selects an audit
    entry, the record shows that entry's reason, or the lookup's default
    text when the entry has none, and the reason carried by the ban itself
    is not shown; the ban's own reason (or "No reason provided.") appears
    only when no entry is selected. *)
Theorem guildBanAdd_reason (ban : Ban) (now : Z) (entries : list AuditLogEntry)
    (darkRed : Color) (s : State) :
  let o := guildBanAdd ban now (inr entries) darkRed s in
  let found := List.find (entry_matches [MemberBanAdd] (Some (u_id (ban_user ban))) now)
                         entries in
  completion o = Return tt /\ final o = s
  /\ emitted (trace o) =
     [{| r_guild := ban_guild ban; r_title := "🔨 User Banned";
         r_description :=
           "**User:** " +:+ tag_id (ban_user ban) +:+ nl
           +:+ "**Responsible Mod:** "
           +:+ match found ≫= a_executor with
               | Some ex => tag_id ex
               | None => "Unknown"
               end +:+ nl
           +:+ "**Reason:** "
           +:+ match found with
               | Some a => or_else (a_reason a) "No reason provided in Audit Log."
               | None => or_else (ban_reason ban) "No reason provided."
               end;
         r_color := darkRed; r_user := Some (ban_user ban) |}].
Proof.
  intros o found. subst o found. unfold guildBanAdd, bind.
  rewrite !getAuditLogExecutor_fetched. cbn [completion final trace requested].
  destruct (List.find _ entries) as [a|];
    cbn [executor reason mbind option_bind]; run_handler; read_trace;
    repeat (split; [done|]); unfold ban_log_reason; cbn [reason]; [|done].
  pose proof (or_else_nonempty (a_reason a) "No reason provided in Audit Log.") as Hne.
  by rewrite truthy_nonempty by (by apply Hne).
Qed.

(** ** More on log delivery *)

(** X10. [logEvent] never fails its caller and never adds or redirects a
    destination: for every answer of the platform it completes normally,
    leaves the nickname history and the invite snapshots alone, and leaves
    the configuration either as it was or without the entry of the
    record's guild, the entries of all other guilds being kept. *)
Theorem logEvent_never_throws (record : LogRecord) (fetched : Exn + option Channel)
    (sent : Exn + unit) (s : State) :
  let o := logEvent record fetched sent s in
  completion o = Return tt
  /\ nicknameHistory (final o) = nicknameHistory s
  /\ invites (final o) = invites s
  /\ (guildConfig (final o) = guildConfig s
      \/ guildConfig (final o) = delete (g_id (r_guild record)) (guildConfig s)).
Proof.
  intros o. subst o.
  destruct (logEvent_outcome record fetched sent s)
    as [Hdone [Hsame|(channelId & e & _ & _ & _ & Hfinal)]].
  - rewrite Hsame. by repeat split; [..|left].
  - rewrite Hfinal. by repeat split; [..|right].
Qed.


(** X12. Eviction is final until the next [setlog]: after a delivery that
    failed with Unknown Channel or Missing Access, every later [logEvent]
    for the same guild returns at once, without a fetch or a send, whatever
    the platform would answer. *)
Theorem logEvent_after_eviction_is_silent (record later : LogRecord)
    (fetched fetched' : Exn + option Channel) (sent sent' : Exn + unit) (s : State)
    (channelId : string) (e : Exn) :
  guildConfig s !! g_id (r_guild record) = Some channelId ->
  channelId <> "" ->
  delivery_error fetched sent = Some e ->
  destination_unreachable e ->
  g_id (r_guild later) = g_id (r_guild record) ->
  let s' := final (logEvent record fetched sent s) in
  logEvent later fetched' sent' s' = silent s'.
Proof.
  intros Hcfg Hne Herr Hun Hsame s'.
  destruct (logEvent_failed record fetched sent s channelId e Hcfg Hne Herr)
    as [_ Hfinal].
  fold s' in Hfinal. rewrite bool_decide_eq_true_2 in Hfinal by done.
  unfold logEvent. rewrite bind_get, Hsame, Hfinal. cbn [guildConfig].
  by rewrite lookup_delete_eq.
Qed.

(** The log channel of the sample guild was deleted; a member then joins. *)
Lemma logEvent_after_eviction_is_silent_witness :
  let gone := inl (DiscordAPIError 10003 "Unknown Channel") in
  let s' := final (logEvent Sample.record gone (inr tt) Sample.configured) in
  logEvent Sample.record (inr (Some Sample.log_channel)) (inr tt) s' = silent s'.
Proof.
  intros gone s'.
  apply (logEvent_after_eviction_is_silent Sample.record Sample.record gone
           (inr (Some Sample.log_channel)) (inr tt) (inr tt) Sample.configured "3001"
           (DiscordAPIError 10003 "Unknown Channel")).
  - vm_compute. reflexivity.
  - discriminate.
  - reflexivity.
  - left. reflexivity.
  - reflexivity.
Defined.

(** ** More on invite tracking *)

Lemma snapshot_acc_other (live : list Invite) (m : gmap string Z) (code : string) :
  code ∉ map i_code live ->
  fold_left (fun m i => <[i_code i := i_uses i]> m) live m !! code = m !! code.
Proof.
  revert m. induction live as [|j live IH]; intros m Hnot; [done|].
  cbn [fold_left]. cbn [map] in Hnot. apply not_elem_of_cons in Hnot as [Hne Hnot].
  rewrite IH by done. by rewrite lookup_insert_ne.
Qed.

(** With pairwise distinct codes, the snapshot gives every live invite
    its own use count. *)
Lemma snapshot_acc_own (live : list Invite) (m : gmap string Z) (i : Invite) :
  NoDup (map i_code live) -> i ∈ live ->
  fold_left (fun m i => <[i_code i := i_uses i]> m) live m !! i_code i = Some (i_uses i).
Proof.
  revert m. induction live as [|j live IH]; intros m Hnd Hin; [by apply elem_of_nil in Hin|].
  cbn [map] in Hnd. apply NoDup_cons in Hnd as [Hfresh Hnd]. cbn [fold_left].
  apply elem_of_cons in Hin as [->|Hin].
  - rewrite snapshot_acc_other by done. by rewrite lookup_insert_eq.
  - by apply IH.
Qed.

Lemma usedInvite_snapshot_same (live : list Invite) :
  NoDup (map i_code live) -> usedInvite (snapshot live) live = None.
Proof.
  intros Hnd. unfold usedInvite.
  destruct (List.find _ live) as [i|] eqn:Hfind; [|done].
  apply find_some in Hfind as [Hin Hlt]. apply list_elem_of_In in Hin.
  unfold snapshot in Hlt. rewrite snapshot_acc_own in Hlt by done.
  apply bool_decide_eq_true in Hlt. cbn in Hlt. lia.
Qed.

(** The outcome of a join in a guild with a snapshot. *)
Lemma guildMemberAdd_tracked (member : Member) (live : list Invite) (s : State)
    (cachedInvites : gmap string Z) :
  invites s !! g_id (m_guild member) = Some cachedInvites ->
  let o := guildMemberAdd member (inr live) s in
  let created := unix_seconds (u_createdAt (m_user member)) in
  completion o = Return tt
  /\ invites (final o) = <[g_id (m_guild member) := snapshot live]> (invites s)
  /\ trace o =
     [FetchInvites (g_id (m_guild member));
      LogEvent {| r_guild := m_guild member; r_title := "🟢 Member Joined";
                  r_description :=
                    (user_line (u_tag (m_user member)) (m_id member)
                     +:+ "**Account Created:** <t:" +:+ created +:+ ":f> (<t:"
                     +:+ created +:+ ":R>)")
                    +:+ invite_text (Some cachedInvites) live;
                  r_color := Green; r_user := Some (m_user member) |}].
Proof.
  intros Hc o created. subst o. unfold guildMemberAdd. rewrite bind_get, Hc.
  unfold bind, await. cbn [completion final trace].
  destruct (usedInvite cachedInvites live) as [used|];
    unfold modify, ret, emit;
    cbn [completion final trace set_invites invites app]; [|done].
  by rewrite insert_insert_eq.
Qed.

(** X13. A guild that could not be primed is not tracked.  When
    [cacheInvites] finds the permission missing, or its fetch is rejected,
    it completes normally and stores no snapshot; a later join in that
    guild is then logged with the text that tracking is disabled, and no
    invite is fetched for it. *)
Theorem cacheInvites_failure_disables_tracking (member : Member) (canManage : bool)
    (fetched answer : Exn + list Invite) (s : State) :
  invites s !! g_id (m_guild member) = None ->
  canManage = false \/ (exists e, fetched = inl e) ->
  let primed := cacheInvites (m_guild member) canManage fetched s in
  let o := guildMemberAdd member answer (final primed) in
  completion primed = Return tt
  /\ final primed = s
  /\ completion o = Return tt
  /\ invite_fetches (trace o) = []
  /\ exists r, emitted (trace o) = [r]
               /\ r_description r =
                  (user_line (u_tag (m_user member)) (m_id member)
                   +:+ "**Account Created:** <t:"
                   +:+ unix_seconds (u_createdAt (m_user member)) +:+ ":f> (<t:"
                   +:+ unix_seconds (u_createdAt (m_user member)) +:+ ":R>)")
                  +:+ (nl +:+ nl +:+ "⚠️ Invite tracking disabled.").
Proof.
  intros Hnone Hfail primed o.
  assert (Hprimed : completion primed = Return tt /\ final primed = s).
  { subst primed. unfold cacheInvites.
    destruct Hfail as [->|[e ->]]; [done|]. by destruct canManage. }
  destruct Hprimed as [Hdone Hfinal]. subst o. rewrite Hfinal.
  split; [done|]. split; [done|].
  unfold guildMemberAdd. rewrite bind_get, Hnone, bind_ret.
  repeat (split; [done|]). eexists. by split.
Qed.

(** The bot lacks Manage Server in the sample guild. *)
Lemma cacheInvites_failure_disables_tracking_witness :
  let s := initial_state Sample.empty_disk in
  let primed := cacheInvites Sample.guild false (inr [Sample.inviteA]) s in
  let o := guildMemberAdd (Sample.member None) (inr [Sample.inviteA]) (final primed) in
  completion primed = Return tt
  /\ final primed = s
  /\ completion o = Return tt
  /\ invite_fetches (trace o) = []
  /\ exists r, emitted (trace o) = [r]
               /\ r_description r =
                  (user_line (u_tag Sample.alice) (m_id (Sample.member None))
                   +:+ "**Account Created:** <t:"
                   +:+ unix_seconds (u_createdAt Sample.alice) +:+ ":f> (<t:"
                   +:+ unix_seconds (u_createdAt Sample.alice) +:+ ":R>)")
                  +:+ (nl +:+ nl +:+ "⚠️ Invite tracking disabled.").
Proof.
  intros s primed o.
  apply (cacheInvites_failure_disables_tracking (Sample.member None) false
           (inr [Sample.inviteA]) (inr [Sample.inviteA]) s).
  - vm_compute. reflexivity.
  - left. reflexivity.
Defined.

(** X14. The cache follows the live list.  After a join pass over a live
    list with pairwise distinct codes, a second join that sees the same
    live list is attributed to no invite ("Could not determine invite
    link."), whatever the cache held before the first pass. *)
Theorem guildMemberAdd_twice_same_list (first second : Member) (live : list Invite)
    (s : State) (cachedInvites : gmap string Z) :
  invites s !! g_id (m_guild first) = Some cachedInvites ->
  g_id (m_guild second) = g_id (m_guild first) ->
  NoDup (map i_code live) ->
  let s1 := final (guildMemberAdd first (inr live) s) in
  let o := guildMemberAdd second (inr live) s1 in
  invites s1 !! g_id (m_guild first) = Some (snapshot live)
  /\ usedInvite (snapshot live) live = None
  /\ exists r, emitted (trace o) = [r]
               /\ r_description r =
                  (user_line (u_tag (m_user second)) (m_id second)
                   +:+ "**Account Created:** <t:"
                   +:+ unix_seconds (u_createdAt (m_user second)) +:+ ":f> (<t:"
                   +:+ unix_seconds (u_createdAt (m_user second)) +:+ ":R>)")
                  +:+ (nl +:+ nl +:+ "**Invite Used:** Could not determine invite link.").
Proof.
  intros Hc Hsame Hnd s1 o.
  destruct (guildMemberAdd_tracked first live s cachedInvites Hc) as (_ & Hinv & _).
  fold s1 in Hinv.
  assert (Hs1 : invites s1 !! g_id (m_guild second) = Some (snapshot live)).
  { by rewrite Hsame, Hinv, lookup_insert_eq. }
  split; [by rewrite <- Hsame|].
  pose proof (usedInvite_snapshot_same live Hnd) as Hnone. split; [done|].
  destruct (guildMemberAdd_tracked second live s1 (snapshot live) Hs1) as (_ & _ & Htrace).
  fold o in Htrace. rewrite Htrace. read_trace. eexists. split; [done|].
  cbn [r_description]. unfold invite_text. by rewrite Hnone.
Qed.

(** Two members join the sample guild; invite B was used once. *)
Lemma guildMemberAdd_twice_same_list_witness :
  let live := [Sample.inviteA; Sample.inviteB 3] in
  let s1 := final (guildMemberAdd (Sample.member None) (inr live) Sample.tracking) in
  let o := guildMemberAdd (Sample.member (Some "Rex")) (inr live) s1 in
  invites s1 !! "1001" = Some (snapshot live)
  /\ usedInvite (snapshot live) live = None
  /\ exists r, emitted (trace o) = [r]
               /\ r_description r =
                  (user_line (u_tag Sample.alice) (m_id (Sample.member (Some "Rex")))
                   +:+ "**Account Created:** <t:"
                   +:+ unix_seconds (u_createdAt Sample.alice) +:+ ":f> (<t:"
                   +:+ unix_seconds (u_createdAt Sample.alice) +:+ ":R>)")
                  +:+ (nl +:+ nl +:+ "**Invite Used:** Could not determine invite link.").
Proof.
  intros live s1 o.
  apply (guildMemberAdd_twice_same_list (Sample.member None) (Sample.member (Some "Rex"))
           live Sample.tracking Sample.cached).
  - vm_compute. reflexivity.
  - reflexivity.
  - cbn. apply NoDup_cons. split; [by intros [=]%list_elem_of_singleton|].
    apply NoDup_singleton.
Defined.

(** X15. Priming is independent per guild: [cacheInvites] for two
    different guilds gives the same state in either order, so the
    unordered priming of all guilds at start-up has one result. *)
Theorem cacheInvites_commute (g1 g2 : Guild) (can1 can2 : bool)
    (fetched1 fetched2 : Exn + list Invite) (s : State) :
  g_id g1 <> g_id g2 ->
  final (cacheInvites g2 can2 fetched2 (final (cacheInvites g1 can1 fetched1 s)))
  = final (cacheInvites g1 can1 fetched1 (final (cacheInvites g2 can2 fetched2 s))).
Proof.
  intros Hne. unfold cacheInvites.
  destruct can1, can2, fetched1 as [e1|live1], fetched2 as [e2|live2];
    run_handler;
    cbn [completion final trace set_invites invites guildConfig nicknameHistory
         disk negb];
    try done.
  by rewrite insert_insert_ne.
Qed.

(** The sample guild and a second guild. *)
Lemma cacheInvites_commute_witness :
  let other := {| g_id := "1002"; g_name := "Shelter" |} in
  let s := initial_state Sample.empty_disk in
  final (cacheInvites other true (inr [Sample.inviteB 1])
           (final (cacheInvites Sample.guild true (inr [Sample.inviteA]) s)))
  = final (cacheInvites Sample.guild true (inr [Sample.inviteA])
             (final (cacheInvites other true (inr [Sample.inviteB 1]) s))).
Proof.
  intros other s.
  apply (cacheInvites_commute Sample.guild other true true
           (inr [Sample.inviteA]) (inr [Sample.inviteB 1]) s).
  discriminate.
Defined.

(** ** More on updates *)

(** The lookup on a fetch that was rejected. *)
Lemma getAuditLogExecutor_rejected guild type targetId now e s :
  getAuditLogExecutor guild type targetId now (inl e) s =
  {| completion := Throw (ReferenceError "types"); final := s;
     trace := [FetchAuditLogs (g_id guild) 5 (requested type)] |}.
Proof. by destruct type. Qed.

Lemma roles_not_in_nil (roles other : list Role) :
  (forall r, r ∈ roles -> role_id r ∈ map role_id other) ->
  roles_not_in roles other = [].
Proof.
  unfold roles_not_in. induction roles as [|r roles IH]; intros Hall; [done|].
  cbn [List.filter]. rewrite bool_decide_eq_true_2 by (apply Hall; by left).
  cbn [negb]. apply IH. intros r' Hr'. apply Hall. by right.
Qed.

Lemma roles_not_in_same_ids (roles other : list Role) :
  map role_id roles = map role_id other -> roles_not_in roles other = [].
Proof.
  intros Hids. apply roles_not_in_nil. intros r Hr. rewrite <- Hids.
  by apply list_elem_of_fmap_2.
Qed.

(** X16. A member update is a silent no-op, without an audit lookup, when
    either snapshot is partial, or when the nickname is the same, the roles
    have the same ids and neither snapshot carries a timeout. *)
Theorem guildMemberUpdate_without_change_is_silent (oldMember newMember : Member)
    (now : Z) (fetched : Exn + list AuditLogEntry) (s : State) :
  m_partial oldMember = true \/ m_partial newMember = true
  \/ same_tracked_member oldMember newMember ->
  guildMemberUpdate oldMember newMember now fetched s = silent s.
Proof.
  intros Hcase. unfold guildMemberUpdate.
  destruct (m_partial oldMember) eqn:Hold; [done|].
  destruct (m_partial newMember) eqn:Hnew; [done|]. cbn [orb].
  destruct Hcase as [?|[?|(Hnick & Hroles & Hto & Htn)]]; [done..|].
  rewrite Hnick, Hto, Htn.
  rewrite bool_decide_eq_false_2 by (by intros Hne; apply Hne).
  rewrite !roles_not_in_same_ids by done.
  done.
Qed.

(** A gateway event that repeats the member as it is. *)
Lemma guildMemberUpdate_without_change_is_silent_witness :
  guildMemberUpdate (Sample.member (Some "Rex")) (Sample.member (Some "Rex"))
                    1700000000000 (inl (OtherError "socket hang up")) Sample.configured
  = silent Sample.configured.
Proof.
  apply (guildMemberUpdate_without_change_is_silent
           (Sample.member (Some "Rex")) (Sample.member (Some "Rex"))).
  right. right. by repeat split.
Defined.

(** X17. A running timeout is announced again by every member update.
    [oldTimeout !== newTimeout] compares two freshly built [Date] objects,
    so for a member whose timeout lies in the future a member update in
    which nickname, roles and timeout are all unchanged still makes one
    audit lookup and, when its fetch succeeds, emits one "Member Timed
    Out" record. *)
Theorem guildMemberUpdate_repeats_running_timeout (oldMember newMember : Member)
    (until now : Z) (entries : list AuditLogEntry) (s : State) :
  m_partial oldMember = false -> m_partial newMember = false ->
  m_nickname oldMember = m_nickname newMember ->
  map role_id (m_roles oldMember) = map role_id (m_roles newMember) ->
  m_communicationDisabledUntil oldMember = Some until ->
  m_communicationDisabledUntil newMember = Some until ->
  now < until ->
  let o := guildMemberUpdate oldMember newMember now (inr entries) s in
  completion o = Return tt /\ final o = s
  /\ lookups (trace o) = [FetchAuditLogs (g_id (m_guild newMember)) 5 [MemberUpdate]]
  /\ exists description,
       emitted (trace o) =
       [{| r_guild := m_guild newMember; r_title := "⏳ Member Timed Out";
           r_description := description; r_color := DarkOrange;
           r_user := Some (m_user newMember) |}].
Proof.
  intros Hold Hnew Hnick Hroles Hto Htn Hlt o. subst o. unfold guildMemberUpdate.
  rewrite Hold, Hnew, Hnick, Hto, Htn. cbn [orb].
  rewrite bool_decide_eq_false_2 by (by intros Hne; apply Hne).
  rewrite !roles_not_in_same_ids by done. cbn [nonempty orb].
  rewrite !bind_ret. unfold bind. rewrite !getAuditLogExecutor_fetched.
  cbn [completion final trace requested in_future].
  rewrite bool_decide_eq_true_2 by done.
  run_handler. read_trace. repeat (split; [done|]). eauto.
Qed.

(** A timed-out member of the sample guild, seen twice unchanged. *)
Lemma guildMemberUpdate_repeats_running_timeout_witness :
  let timed_out :=
    {| m_user := Sample.alice; m_guild := Sample.guild; m_partial := false;
       m_nickname := Some "Rex"; m_joinedAt := None; m_roles := [];
       m_communicationDisabledUntil := Some 1700000600000 |} in
  let o := guildMemberUpdate timed_out timed_out 1700000000000 (inr []) Sample.configured in
  completion o = Return tt /\ final o = Sample.configured
  /\ lookups (trace o) = [FetchAuditLogs "1001" 5 [MemberUpdate]]
  /\ exists description,
       emitted (trace o) =
       [{| r_guild := Sample.guild; r_title := "⏳ Member Timed Out";
           r_description := description; r_color := DarkOrange;
           r_user := Some Sample.alice |}].
Proof.
  intros timed_out o.
  apply (guildMemberUpdate_repeats_running_timeout timed_out timed_out
           1700000600000 1700000000000 [] Sample.configured);
    reflexivity.
Defined.

Lemma push_if_nil (differs : bool) (line : string) (changes : list string) :
  push_if differs line changes = [] -> differs = false /\ changes = [].
Proof.
  unfold push_if. destruct differs; [|done].
  intros Happ. by apply app_eq_nil in Happ as [_ ?].
Qed.

Lemma bool_decide_ne_false {A} `{EqDecision A} (x y : A) :
  bool_decide (x <> y) = false -> x = y.
Proof.
  intros Hb. apply bool_decide_eq_false in Hb.
  by destruct (decide (x = y)).
Qed.

(** Equal sizes and no changed override make the two override maps equal. *)
Lemma overwrites_unchanged (oldPerms newPerms : gmap string Overwrite) :
  size oldPerms = size newPerms ->
  size (filter (fun entry => override_changed oldPerms entry = true) newPerms) = 0%nat ->
  oldPerms = newPerms.
Proof.
  intros Hsize Hnone. apply map_size_empty_iff, map_empty_filter in Hnone.
  symmetry. apply map_subseteq_size_eq; [|lia].
  apply map_subseteq_spec. intros id ow Hid.
  specialize (Hnone id ow Hid). unfold override_changed in Hnone. cbn [fst snd] in Hnone.
  destruct (oldPerms !! id) as [[allow deny]|]; [|done].
  destruct ow as [allow' deny']. cbn [ow_allow ow_deny] in Hnone.
  apply not_true_is_false, orb_false_iff in Hnone as [Ha Hd].
  apply bool_decide_ne_false in Ha, Hd. by subst.
Qed.

Lemma channel_changes_nil (old new : Channel) :
  channel_changes old new = [] -> same_tracked_channel old new.
Proof.
  unfold channel_changes, same_tracked_channel. cbv zeta.
  case_bool_decide as Hsize.
  { intros Happ. by apply app_eq_nil in Happ as [_ ?]. }
  intros Hnil.
  apply push_if_nil in Hnil as [Hperms Hnil].
  apply push_if_nil in Hnil as [Hrate Hnil].
  apply push_if_nil in Hnil as [Htopic Hnil].
  apply push_if_nil in Hnil as [Hname _].
  apply bool_decide_ne_false in Hname, Htopic, Hrate.
  repeat (split; [done|]).
  apply overwrites_unchanged.
  - by destruct (decide (size (ch_permissionOverwrites old)
                         = size (ch_permissionOverwrites new))).
  - apply bool_decide_eq_false in Hperms. lia.
Qed.

Lemma role_changes_nil (old new : Role) :
  role_changes old new = [] -> same_tracked_role old new.
Proof.
  unfold role_changes, same_tracked_role. cbv zeta. intros Hnil.
  apply push_if_nil in Hnil as [Hperms Hnil].
  apply push_if_nil in Hnil as [Hcolor Hnil].
  apply push_if_nil in Hnil as [Hname _].
  apply bool_decide_ne_false in Hname, Hcolor.
  apply negb_false_iff, bool_decide_eq_true in Hperms. done.
Qed.

Lemma guild_changes_nil (old new : GuildSettings) :
  guild_changes old new = [] -> same_tracked_guild old new.
Proof.
  unfold guild_changes, same_tracked_guild. cbv zeta. intros Hnil.
  apply push_if_nil in Hnil as [Hsys Hnil].
  apply push_if_nil in Hnil as [Hlevel Hnil].
  apply push_if_nil in Hnil as [Hicon Hnil].
  apply push_if_nil in Hnil as [Hname _].
  by apply bool_decide_ne_false in Hname, Hicon, Hlevel, Hsys.
Qed.

(** A handler that awaits the lookup has traced its request, whatever the
    answer. *)
Lemma lookup_is_traced {A} guild type targetId now fetched (k : Attribution -> M A) s :
  exists rest,
    trace (bind (getAuditLogExecutor guild type targetId now fetched) k s)
    = FetchAuditLogs (g_id guild) 5 (requested type) :: rest.
Proof.
  unfold bind. destruct fetched as [e|entries].
  - rewrite getAuditLogExecutor_rejected. cbn. eauto.
  - rewrite getAuditLogExecutor_fetched. cbn. eauto.
Qed.

(** Refutes that a handler which reached its lookup was silent. *)
Ltac not_silent H :=
  apply (f_equal trace) in H;
  match type of H with
  | trace (bind (getAuditLogExecutor ?g ?ty ?tg ?n ?f) ?k ?st) = _ =>
      let rest := fresh "rest" in
      let Hrest := fresh "Hrest" in
      destruct (lookup_is_traced g ty tg n f k st) as [rest Hrest];
      rewrite Hrest in H; discriminate H
  end.

(** X18. For a channel of a guild, with two complete snapshots, the
    handler is silent exactly when no tracked field differs: any difference
    in the name, the topic, the rate limit or the permission overwrites (an
    added, removed or altered overwrite) makes it issue the audit lookup. *)
Theorem channelUpdate_silent_iff_unchanged (oldChannel newChannel : Channel)
    (guild : Guild) (now : Z) (fetched : Exn + list AuditLogEntry) (s : State) :
  ch_guild newChannel = Some guild ->
  ch_partial oldChannel = false -> ch_partial newChannel = false ->
  channelUpdate oldChannel newChannel now fetched s = silent s
  <-> same_tracked_channel oldChannel newChannel.
Proof.
  intros Hguild Hold Hnew. unfold channelUpdate. rewrite Hguild, Hold, Hnew. cbn [orb].
  split.
  - intros Hsilent. apply channel_changes_nil.
    destruct (channel_changes oldChannel newChannel) as [|line changes]; [done|].
    rewrite bool_decide_eq_false_2 in Hsilent by done.
    not_silent Hsilent.
  - intros Hsame. by rewrite channel_changes_same.
Qed.

(** The log channel of the sample guild, seen twice unchanged. *)
Lemma channelUpdate_silent_iff_unchanged_witness :
  channelUpdate Sample.log_channel Sample.log_channel 0 (inr []) Sample.configured
    = silent Sample.configured
  <-> same_tracked_channel Sample.log_channel Sample.log_channel.
Proof.
  apply (channelUpdate_silent_iff_unchanged Sample.log_channel Sample.log_channel
           Sample.guild 0 (inr []) Sample.configured); reflexivity.
Defined.

(** X19. A role update and a guild update are silent exactly when no
    tracked field differs (role: name, colour, permissions; guild: name,
    icon, verification level, system channel id); any difference makes the
    handler issue the audit lookup, whatever the platform then answers. *)
Theorem roleUpdate_guildUpdate_silent_iff_unchanged :
  (forall (guild : Guild) (oldRole newRole : Role) (now : Z)
          (fetched : Exn + list AuditLogEntry) (s : State),
     roleUpdate guild oldRole newRole now fetched s = silent s
     <-> same_tracked_role oldRole newRole)
  /\ (forall (oldGuild newGuild : GuildSettings) (now : Z)
             (fetched : Exn + list AuditLogEntry) (s : State),
        guildUpdate oldGuild newGuild now fetched s = silent s
        <-> same_tracked_guild oldGuild newGuild).
Proof.
  split.
  - intros guild oldRole newRole now fetched s. unfold roleUpdate. split.
    + intros Hsilent. apply role_changes_nil.
      destruct (role_changes oldRole newRole) as [|line changes]; [done|].
      rewrite bool_decide_eq_false_2 in Hsilent by done. not_silent Hsilent.
    + intros Hsame. by rewrite role_changes_same.
  - intros oldGuild newGuild now fetched s. unfold guildUpdate. split.
    + intros Hsilent. apply guild_changes_nil.
      destruct (guild_changes oldGuild newGuild) as [|line changes]; [done|].
      rewrite bool_decide_eq_false_2 in Hsilent by done. not_silent Hsilent.
    + intros Hsame. by rewrite guild_changes_same.
Qed.

(** ** The setlog command *)

Lemma find_none_iff {A} (f : A -> bool) (l : list A) :
  (forall x, x ∈ l -> f x = false) -> List.find f l = None.
Proof.
  induction l as [|y l IH]; intros Hall; [done|]. cbn [List.find].
  rewrite (Hall y) by (by left). apply IH. intros x Hx. apply Hall. by right.
Qed.

(** X20. When [setlog] is given an argument that is neither the id nor
    the name of a channel of the guild, it replies that it is "Using the
    current channel as the log channel" and returns: nothing is stored, in
    memory or on disk, and the current channel does not become the log
    channel. *)
Theorem setlog_unknown_argument_sets_nothing (message : CommandMessage)
    (arg : string) (rest : list string) (answered : Exn + unit) (s : State) :
  cm_isAdmin message = true ->
  cm_mentioned message = None ->
  arg <> "" ->
  (forall ch, ch ∈ cm_channels message -> ch_id ch <> arg /\ ch_name ch <> arg) ->
  setlog message (arg :: rest) answered s
  = (Reply ("⚠️ Could not find a channel matching " +:+ code_span arg
            +:+ ". Using the current channel as the log channel."),
     {| completion := match answered with inl e => Throw e | inr _ => Return tt end;
        final := s; trace := [] |}).
Proof.
  intros Hadmin Hmention Harg Hnone.
  unfold setlog, setlog_target. rewrite Hadmin, Hmention. cbn [negb head].
  rewrite truthy_nonempty by done.
  unfold resolve_channel.
  rewrite !find_none_iff; [done| |].
  - intros ch Hch. apply bool_decide_eq_false_2. by apply Hnone.
  - intros ch Hch. apply bool_decide_eq_false_2. by apply Hnone.
Qed.

(** An administrator of the unconfigured sample guild mistypes the name. *)
Lemma setlog_unknown_argument_sets_nothing_witness :
  setlog Fixture.admin_message ["log"] (inr tt) Sample.tracking
  = (Reply ("⚠️ Could not find a channel matching " +:+ code_span "log"
            +:+ ". Using the current channel as the log channel."),
     {| completion := Return tt; final := Sample.tracking; trace := [] |}).
Proof.
  apply (setlog_unknown_argument_sets_nothing Fixture.admin_message "log" []
           (inr tt) Sample.tracking).
  - reflexivity.
  - reflexivity.
  - discriminate.
  - intros ch Hch. apply list_elem_of_singleton in Hch as ->. split; discriminate.
Defined.

(** X21. What [setlog] stores.  Either it replies and leaves the state as
    it was, or it stores one channel id under the guild's id and saves: the
    entry survives a restart, the entries of other guilds, the nickname
    history and the invite snapshots are kept, and the confirmation goes to
    the channel of the command.  A channel taken from a mention or from an
    argument is always a text channel; only the channel of the command
    itself is stored without a check of its type.  Non-administrators never
    change the state. *)
Theorem setlog_stores_checked_channel (message : CommandMessage) (args : list string)
    (answered : Exn + unit) (s : State) :
  let G := g_id (cm_guild message) in
  let o := (setlog message args answered s).2 in
  ((exists content, (setlog message args answered s).1 = Reply content) /\ final o = s
   \/ exists target,
        guildConfig (final o) = <[G := ch_id target]> (guildConfig s)
        /\ guildConfig (reload (disk (final o))) = <[G := ch_id target]> (guildConfig s)
        /\ nicknameHistory (final o) = nicknameHistory s
        /\ invites (final o) = invites s
        /\ cm_isAdmin message = true
        /\ (ch_type target = 0
            \/ (target = cm_channel message /\ cm_mentioned message = None
                /\ truthy (head args) = None))
        /\ exists title description color,
             (setlog message args answered s).1
             = SendEmbed (ch_id (cm_channel message)) title description color)
  /\ (cm_isAdmin message = false -> final o = s).
Proof.
  intros G o. subst G o. unfold setlog, setlog_target.
  destruct (cm_isAdmin message); cbn [negb]; [|by split; [left; eauto|]].
  split; [|done].
  destruct (cm_mentioned message) as [mentioned|].
  - case_bool_decide as Hty; [|left; eauto].
    right. exists mentioned. cbn [fst snd]. repeat (split; [done|]).
    split; [by left|eauto].
  - destruct (truthy (head args)) as [arg|] eqn:Harg.
    + destruct (resolve_channel _ arg) as [resolved|]; [|left; eauto].
      case_bool_decide as Hty; [|left; eauto].
      right. exists resolved. cbn [fst snd]. repeat (split; [done|]).
      split; [by left|eauto].
    + right. exists (cm_channel message). cbn [fst snd]. repeat (split; [done|]).
      split; [by right|eauto].
Qed.

(** X22. [setlog] without a mention or an argument stores the channel of
    the command whatever its type.  Used in a channel that is not a text
    channel, it confirms "Log Channel Set!", and from then on every
    [logEvent] for the guild fetches that channel and drops the record:
    nothing is sent and the entry is not evicted. *)
Theorem setlog_in_non_text_channel_logs_nothing (message : CommandMessage)
    (answered : Exn + unit) (record : LogRecord) (sent : Exn + unit) (s : State) :
  cm_isAdmin message = true ->
  cm_mentioned message = None ->
  ch_type (cm_channel message) <> 0 ->
  ch_id (cm_channel message) <> "" ->
  g_id (r_guild record) = g_id (cm_guild message) ->
  let said := (setlog message [] answered s).1 in
  let s' := final (setlog message [] answered s).2 in
  (exists description,
     said = SendEmbed (ch_id (cm_channel message)) "✅ Log Channel Set!" description Green)
  /\ guildConfig s' !! g_id (cm_guild message) = Some (ch_id (cm_channel message))
  /\ logEvent record (inr (Some (cm_channel message))) sent s'
     = {| completion := Return tt; final := s';
          trace := [FetchChannel (g_id (cm_guild message)) (ch_id (cm_channel message))] |}.
Proof.
  intros Hadmin Hmention Hty Hid Hguild said s'.
  set (kept := <[g_id (cm_guild message) := ch_id (cm_channel message)]> (guildConfig s)).
  assert (Hfinal : s' = {| guildConfig := kept; nicknameHistory := nicknameHistory s;
                           invites := invites s;
                           disk := {| config_json := Holds kept;
                                      history_json := Holds (nicknameHistory s) |} |}).
  { subst s'. unfold setlog, setlog_target. by rewrite Hadmin, Hmention. }
  split.
  { subst said. unfold setlog, setlog_target. rewrite Hadmin, Hmention. cbn. eauto. }
  assert (Hcfg : guildConfig s' !! g_id (cm_guild message)
                 = Some (ch_id (cm_channel message))).
  { rewrite Hfinal. cbn [guildConfig]. apply lookup_insert_eq. }
  split; [done|].
  unfold logEvent. rewrite bind_get, Hguild, Hcfg, truthy_nonempty by done.
  run_handler. by rewrite bool_decide_eq_true_2.
Qed.

(** [setlog] typed into the text chat of a voice channel. *)
Lemma setlog_in_non_text_channel_logs_nothing_witness :
  let voice := {| ch_id := "3009"; ch_guild := Some Sample.guild; ch_partial := false;
                  ch_type := 2; ch_name := "Lounge"; ch_topic := None;
                  ch_rateLimitPerUser := 0; ch_permissionOverwrites := ∅ |} in
  let message := {| cm_guild := Sample.guild; cm_isAdmin := true; cm_channel := voice;
                    cm_mentioned := None; cm_channels := [Sample.log_channel; voice] |} in
  let said := (setlog message [] (inr tt) Sample.tracking).1 in
  let s' := final (setlog message [] (inr tt) Sample.tracking).2 in
  (exists description,
     said = SendEmbed "3009" "✅ Log Channel Set!" description Green)
  /\ guildConfig s' !! "1001" = Some "3009"
  /\ logEvent Sample.record (inr (Some voice)) (inr tt) s'
     = {| completion := Return tt; final := s';
          trace := [FetchChannel "1001" "3009"] |}.
Proof.
  intros voice message said s'.
  apply (setlog_in_non_text_channel_logs_nothing message (inr tt) Sample.record (inr tt)
           Sample.tracking); try reflexivity; discriminate.
Defined.

(** X23. An argument of [setlog] is read as a channel id first and as a
    channel name second: when a channel of the guild has the argument as
    its id, that channel is resolved even if another channel, earlier in
    the cache, has the argument as its name; the name is used only when no
    id matches, and then the first channel of that name is taken. *)
Theorem resolve_channel_id_before_name (channels : list Channel) (arg : string) :
  match resolve_channel channels arg with
  | Some ch =>
      ch ∈ channels
      /\ (ch_id ch = arg
          \/ (ch_name ch = arg
              /\ Forall (fun other => ch_id other <> arg) channels
              /\ first_such (fun other => ch_name other = arg) channels ch))
  | None => Forall (fun other => ch_id other <> arg /\ ch_name other <> arg) channels
  end
  /\ (Exists (fun other => ch_id other = arg) channels ->
      exists ch, resolve_channel channels arg = Some ch /\ ch_id ch = arg).
Proof.
  unfold resolve_channel.
  destruct (List.find (fun ch => bool_decide (ch_id ch = arg)) channels) as [ch|] eqn:Hid.
  - apply find_some in Hid as [Hin Hch]. apply bool_decide_eq_true in Hch.
    split; [split; [by apply list_elem_of_In|by left]|eauto].
  - assert (Hnoid : Forall (fun other => ch_id other <> arg) channels).
    { eapply Forall_impl; [by apply find_none|].
      intros other Hother Heq. apply Hother. by apply bool_decide_eq_true. }
    split.
    + destruct (List.find (fun ch => bool_decide (ch_name ch = arg)) channels)
        as [ch|] eqn:Hname.
      * pose proof (find_first _ _ _ Hname) as Hfirst.
        apply find_some in Hname as [Hin Hch]. apply bool_decide_eq_true in Hch.
        split; [by apply list_elem_of_In|]. right. repeat (split; [done|]).
        eapply first_such_iff; [|exact Hfirst].
        intros other. apply bool_decide_eq_true.
      * apply find_none in Hname. rewrite Forall_forall in *.
        intros other Hother. split; [by apply Hnoid|].
        intros Heq. apply (Hname other Hother). by apply bool_decide_eq_true.
    + intros Hex. apply Exists_exists in Hex as (other & Hother & Heq).
      rewrite Forall_forall in Hnoid. by destruct (Hnoid other Hother).
Qed.

(** ** Voice states and presences *)

(** Decides the comparisons of a handler one after the other. *)
Ltac split_cases :=
  repeat match goal with
         | |- context [bool_decide ?P] => destruct (bool_decide P) eqn:?
         | |- context [match ?x with Some _ => _ | None => _ end] => destruct x eqn:?
         end.

(** X24. A voice state update never touches the state, never makes a
    request to the platform and emits at most one record, whatever changed
    between the two states. *)
Theorem voiceStateUpdate_at_most_one_record (oldState newState : VoiceState)
    (lightGrey : Color) (s : State) :
  let o := voiceStateUpdate oldState newState lightGrey s in
  completion o = Return tt /\ final o = s
  /\ (length (emitted (trace o)) <= 1)%nat
  /\ trace o = LogEvent <$> emitted (trace o).
Proof.
  intros o. subst o. unfold voiceStateUpdate.
  destruct (vs_member newState) as [member|]; [|by repeat split; cbn; lia].
  destruct (vs_guild newState) as [guild|]; [|by repeat split; cbn; lia].
  destruct (vs_channelId oldState) as [old|], (vs_channelId newState) as [new|].
  - destruct (decide (old = new)) as [->|Hne].
    + rewrite (bool_decide_eq_false_2 (new ≠ new)) by (by intros Hne; apply Hne).
      rewrite (bool_decide_eq_false_2 (Some new ≠ Some new)) by (by intros Hne; apply Hne).
      split_cases; run_handler; read_trace; repeat split; cbn; lia.
    + rewrite (bool_decide_eq_true_2 (old ≠ new)) by done.
      rewrite (bool_decide_eq_true_2 (Some old ≠ Some new)) by congruence.
      run_handler; read_trace; repeat split; cbn; lia.
  - rewrite (bool_decide_eq_true_2 (Some old ≠ None)) by done.
    run_handler; read_trace; repeat split; cbn; lia.
  - rewrite (bool_decide_eq_true_2 (None ≠ Some new)) by done.
    run_handler; read_trace; repeat split; cbn; lia.
  - rewrite (bool_decide_eq_false_2 (None ≠ None)) by (by intros Hne; apply Hne).
    split_cases; run_handler; read_trace; repeat split; cbn; lia.
Qed.

(** X25. A move between voice channels is logged as the move alone.  When
    the channel id differs between the two states, exactly one record is
    emitted, "Voice Joined", "Voice Left" or "Voice Switched" by the
    direction, and a mute, deafen, stream or video change carried by the
    same event is not logged. *)
Theorem voiceStateUpdate_move_shadows_flags (oldState newState : VoiceState)
    (member : Member) (guild : Guild) (lightGrey : Color) (s : State) :
  vs_member newState = Some member ->
  vs_guild newState = Some guild ->
  vs_channelId oldState <> vs_channelId newState ->
  emitted (trace (voiceStateUpdate oldState newState lightGrey s)) =
  [match vs_channelId oldState, vs_channelId newState with
   | Some _, None =>
       {| r_guild := guild; r_title := "🔇 Voice Left";
          r_description := "**Channel:** " +:+ voice_channel oldState;
          r_color := Red; r_user := Some (m_user member) |}
   | Some _, Some _ =>
       {| r_guild := guild; r_title := "🔁 Voice Switched";
          r_description := "**Old Channel:** " +:+ voice_channel oldState +:+ nl
                           +:+ "**New Channel:** " +:+ voice_channel newState;
          r_color := Blue; r_user := Some (m_user member) |}
   | None, _ =>
       {| r_guild := guild; r_title := "🔊 Voice Joined";
          r_description := "**Channel:** " +:+ voice_channel newState;
          r_color := Green; r_user := Some (m_user member) |}
   end].
Proof.
  intros Hmember Hguild Hmove. unfold voiceStateUpdate. rewrite Hmember, Hguild.
  rewrite (bool_decide_eq_true_2 (vs_channelId oldState ≠ vs_channelId newState)) by done.
  destruct (vs_channelId oldState) as [old|], (vs_channelId newState) as [new|];
    try done.
  rewrite bool_decide_eq_true_2 by congruence. done.
Qed.

(** A member who is muted by a moderator while being moved. *)
Lemma voiceStateUpdate_move_shadows_flags_witness :
  let moved :=
    {| vs_member := Some (Sample.member None); vs_guild := Some Sample.guild;
       vs_channelId := Some "3006"; vs_mute := Some true; vs_serverMute := Some true;
       vs_deaf := Some false; vs_serverDeaf := Some false; vs_streaming := Some false;
       vs_selfVideo := Some false |} in
  emitted (trace (voiceStateUpdate Fixture.idle moved Grey Sample.configured)) =
  [{| r_guild := Sample.guild; r_title := "🔁 Voice Switched";
      r_description := "**Old Channel:** " +:+ voice_channel Fixture.idle +:+ nl
                       +:+ "**New Channel:** " +:+ voice_channel moved;
      r_color := Blue; r_user := Some Sample.alice |}].
Proof.
  intros moved.
  apply (voiceStateUpdate_move_shadows_flags Fixture.idle moved (Sample.member None)
           Sample.guild Grey Sample.configured).
  - reflexivity.
  - reflexivity.
  - discriminate.
Defined.

(** X26. A presence update is dropped without a record when the guild has
    no log channel configured, and also when the first activity of the new
    presence has the name and the type of the first activity of the old one
    (or both presences have none): changes of further activities, of the
    details of the first one or of the online status are not logged. *)
Theorem presenceUpdate_ignored (oldPresence : option Presence) (newPresence : Presence)
    (guild : Guild) (s : State) :
  p_guild newPresence = Some guild ->
  guildConfig s !! g_id guild = None
  \/ (act_name <$> head (p_activities newPresence)
      = act_name <$> (oldPresence ≫= fun p => head (p_activities p))
      /\ act_type <$> head (p_activities newPresence)
         = act_type <$> (oldPresence ≫= fun p => head (p_activities p))) ->
  presenceUpdate oldPresence newPresence s = silent s.
Proof.
  intros Hguild Hcase. unfold presenceUpdate. rewrite Hguild.
  destruct (p_member newPresence) as [member|]; [|done].
  rewrite bind_get.
  destruct Hcase as [Hnone|[Hname Htype]]; [by rewrite Hnone|].
  destruct (truthy (guildConfig s !! g_id guild)); [|done].
  rewrite bool_decide_eq_false_2; [done|]. by intros [?|?].
Qed.

(** A member of the sample guild goes idle while playing the same game. *)
Lemma presenceUpdate_ignored_witness :
  let game := {| act_name := "Fetch"; act_type := 0; act_details := Some "Level 2" |} in
  let music := {| act_name := "Howl"; act_type := 2; act_details := None |} in
  let before := {| p_guild := Some Sample.guild; p_member := Some (Sample.member None);
                   p_activities := [game] |} in
  let after := {| p_guild := Some Sample.guild; p_member := Some (Sample.member None);
                  p_activities := [game; music] |} in
  presenceUpdate (Some before) after Sample.configured = silent Sample.configured.
Proof.
  intros game music before after.
  apply (presenceUpdate_ignored (Some before) after Sample.guild Sample.configured).
  - reflexivity.
  - right. by split.
Defined.

(** ** Message edits *)

(** X27. A message update is a silent no-op, without an audit lookup,
    when either snapshot is partial, when the author of the old message is
    a bot (this bot included), or when neither the content nor the pinned
    flag differs. *)
Theorem messageUpdate_ignored (oldMessage newMessage : MessageState) (now : Z)
    (fetched : Exn + list AuditLogEntry) (s : State) :
  ms_partial oldMessage = true \/ ms_partial newMessage = true
  \/ (exists author, ms_author oldMessage = Some author /\ u_bot author = true)
  \/ (ms_content oldMessage = ms_content newMessage
      /\ ms_pinned oldMessage = ms_pinned newMessage) ->
  messageUpdate oldMessage newMessage now fetched s = silent s.
Proof.
  intros Hcase. unfold messageUpdate.
  destruct (ms_partial oldMessage); [done|].
  destruct (ms_partial newMessage); [done|]. cbn [orb].
  destruct Hcase as [?|[?|[(author & Hauthor & Hbot)|[Hcontent Hpinned]]]]; [done..| |].
  - by rewrite Hauthor, Hbot.
  - destruct (match ms_author oldMessage with Some a => u_bot a | None => false end);
      [done|].
    rewrite Hcontent, Hpinned.
    by rewrite !bool_decide_eq_false_2 by (by intros Hne; apply Hne).
Qed.

(** A music bot edits its own "now playing" message. *)
Lemma messageUpdate_ignored_witness :
  let before := {| ms_partial := false; ms_author := Some Sample.otherbot;
                   ms_guild := Sample.guild; ms_channelId := "3002";
                   ms_content := "now playing: A"; ms_pinned := false;
                   ms_url := "https://discord.example/m/1" |} in
  let after := {| ms_partial := false; ms_author := Some Sample.otherbot;
                  ms_guild := Sample.guild; ms_channelId := "3002";
                  ms_content := "now playing: B"; ms_pinned := false;
                  ms_url := "https://discord.example/m/1" |} in
  messageUpdate before after 1700000000000 (inr []) Sample.configured
  = silent Sample.configured.
Proof.
  intros before after.
  apply (messageUpdate_ignored before after 1700000000000 (inr []) Sample.configured).
  right. right. left. exists Sample.otherbot. by split.
Defined.

(** X28. The edit record does not depend on the audit log.  For a message
    of a user that is complete on both sides and whose content changed, the
    "Message Edited" record is emitted first, before any lookup and with
    the author as its user; it is emitted also when the message was pinned
    or unpinned in the same event and the lookup for the pin is
    rejected. *)
Theorem messageUpdate_edit_record_first (oldMessage newMessage : MessageState)
    (author : User) (now : Z) (fetched : Exn + list AuditLogEntry) (s : State) :
  ms_partial oldMessage = false -> ms_partial newMessage = false ->
  ms_author oldMessage = Some author -> u_bot author = false ->
  ms_content oldMessage <> ms_content newMessage ->
  exists description rest,
    trace (messageUpdate oldMessage newMessage now fetched s) =
    LogEvent {| r_guild := ms_guild oldMessage; r_title := "✍️ Message Edited";
                r_description := description; r_color := Blue;
                r_user := Some author |} :: rest
    /\ (ms_pinned oldMessage = ms_pinned newMessage -> rest = [])
    /\ (ms_pinned oldMessage <> ms_pinned newMessage ->
        lookups rest =
        [FetchAuditLogs (g_id (ms_guild newMessage)) 5
           [if ms_pinned newMessage then MessagePin else MessageUnpin]]
        /\ forall e, fetched = inl e -> emitted rest = []).
Proof.
  intros Hold Hnew Hauthor Hbot Hcontent. unfold messageUpdate.
  rewrite Hold, Hnew, Hauthor, Hbot. cbn [orb].
  rewrite (bool_decide_eq_true_2 (ms_content oldMessage ≠ ms_content newMessage)) by done.
  destruct (decide (ms_pinned oldMessage = ms_pinned newMessage)) as [Hpin|Hpin].
  - rewrite bool_decide_eq_false_2 by (by intros Hne; apply Hne).
    run_handler. eexists _, []. repeat split; done.
  - rewrite bool_decide_eq_true_2 by done.
    destruct fetched as [e|entries]; unfold bind.
    + rewrite !getAuditLogExecutor_rejected. run_handler.
      eexists _, _. split; [done|]. split; [done|]. intros _.
      by destruct (ms_pinned newMessage).
    + rewrite !getAuditLogExecutor_fetched. run_handler.
      eexists _, _. split; [done|]. split; [done|]. intros _.
      split; [by destruct (ms_pinned newMessage)|]. by intros e [=].
Qed.

(** A member edits and pins a message while the audit log is unreadable. *)
Lemma messageUpdate_edit_record_first_witness :
  let before := {| ms_partial := false; ms_author := Some Sample.alice;
                   ms_guild := Sample.guild; ms_channelId := "3002";
                   ms_content := "rules v1"; ms_pinned := false;
                   ms_url := "https://discord.example/m/2" |} in
  let after := {| ms_partial := false; ms_author := Some Sample.alice;
                  ms_guild := Sample.guild; ms_channelId := "3002";
                  ms_content := "rules v2"; ms_pinned := true;
                  ms_url := "https://discord.example/m/2" |} in
  let fetched := inl (DiscordAPIError 50013 "Missing Permissions") in
  exists description rest,
    trace (messageUpdate before after 1700000000000 fetched Sample.configured) =
    LogEvent {| r_guild := Sample.guild; r_title := "✍️ Message Edited";
                r_description := description; r_color := Blue;
                r_user := Some Sample.alice |} :: rest
    /\ (ms_pinned before = ms_pinned after -> rest = [])
    /\ (ms_pinned before <> ms_pinned after ->
        lookups rest = [FetchAuditLogs "1001" 5 [MessagePin]]
        /\ forall e, fetched = inl e -> emitted rest = []).
Proof.
  intros before after fetched.
  apply (messageUpdate_edit_record_first before after Sample.alice 1700000000000
           fetched Sample.configured); try reflexivity; discriminate.
Defined.

(** ** Handlers behind a rejected lookup *)

(** X29. The handlers that await the audit lookup before they build their
    record emit nothing when the fetch of the audit log is rejected: a
    deleted channel, a deleted role, a ban, an unban and a deleted message
    of a user each end with the [ReferenceError] of the lookup and without
    a record. *)
Theorem rejected_lookup_loses_the_record (e : Exn) (now : Z) (s : State)
    (guild : Guild) (channel : Channel) (role : Role) (ban : Ban) (darkRed : Color)
    (message : Message) (clientUserId : string) :
  ch_guild channel = Some guild ->
  msg_guild message = Some guild ->
  other_bot (msg_author message) clientUserId = false ->
  Forall (fun o : Outcome unit =>
            completion o = Throw (ReferenceError "types")
            /\ emitted (trace o) = [] /\ final o = s)
         [channelDelete channel now (inl e) s;
          roleDelete guild role now (inl e) s;
          guildBanAdd ban now (inl e) darkRed s;
          guildBanRemove ban now (inl e) s;
          messageDelete message clientUserId now (inl e) s].
Proof.
  intros Hchannel Hmessage Hbot.
  unfold channelDelete, roleDelete, guildBanAdd, guildBanRemove, messageDelete.
  rewrite Hchannel, Hmessage, Hbot. unfold bind.
  rewrite !getAuditLogExecutor_rejected.
  repeat (constructor; [done|]). constructor.
Qed.

(** The bot may not read the audit log of the sample guild. *)
Lemma rejected_lookup_loses_the_record_witness :
  let e := DiscordAPIError 50013 "Missing Permissions" in
  let s := Sample.configured in
  let role := {| role_id := "4001"; role_name := "Keeper"; role_color := 3447003;
                 role_permissions := 8 |} in
  let ban := {| ban_guild := Sample.guild; ban_user := Sample.alice;
                ban_reason := Some "spam" |} in
  let message := {| msg_guild := Some Sample.guild; msg_author := Some Sample.alice;
                    msg_channelId := "3002"; msg_content := Some "hello";
                    msg_attachments := [] |} in
  Forall (fun o : Outcome unit =>
            completion o = Throw (ReferenceError "types")
            /\ emitted (trace o) = [] /\ final o = s)
         [channelDelete Sample.log_channel 0 (inl e) s;
          roleDelete Sample.guild role 0 (inl e) s;
          guildBanAdd ban 0 (inl e) Red s;
          guildBanRemove ban 0 (inl e) s;
          messageDelete message Sample.watchdog_id 0 (inl e) s].
Proof.
  intros e s role ban message.
  apply (rejected_lookup_loses_the_record e 0 s Sample.guild Sample.log_channel role ban
           Red message Sample.watchdog_id); reflexivity.
Defined.

(** ** The colour of a role in a record *)






